(** * Currency data synchronisation: resolver and view generation

    A shallow embedding of [scripts/update_currency_data.py]
    (class [CurrencyDataProcessor]) and the properties of its currency
    resolver and view generators.

    Modelling conventions.
    - A Python [str] is a [string]; Python compares strings by code point,
      which for UTF-8 encoded text is the byte-wise lexicographic order
      computed by [String.compare].
    - An attribute read with [elem.get(k)] is an [option string] ([None]
      when the attribute is missing).
    - The reference tables and the per-country records are Python dicts
      read with [.get]; they are [gmap]s.
    - The parsed region history is a dict that is only iterated, in
      insertion order: an association list whose keys are pairwise
      distinct. *)

From Stdlib Require Import String Ascii List Bool NArith Permutation Sorted.
From stdpp Require Import gmap strings.
Import ListNotations.
Open Scope string_scope.

(** ** Python values *)

Module Py.

(** Truth value of an [Optional[str]]: [None] and [''] are falsy. *)
Definition truthy (v : option string) : bool :=
  match v with
  | None => false
  | Some s => negb (String.eqb s "")
  end.

(** [v or d] for an [Optional[str]] [v] and a string [d]. *)
Definition or_else (v : option string) (d : string) : string :=
  match v with
  | None => d
  | Some s => if String.eqb s "" then d else s
  end.

(** [a >= b] on strings. *)
Definition ge (a b : string) : bool := String.leb b a.

(** Insertion of [x] in front of the first element that is not below
    it. *)
Fixpoint insert {A} (le : A -> A -> bool) (x : A) (l : list A) : list A :=
  match l with
  | [] => [x]
  | y :: l' => if le x y then x :: y :: l' else y :: insert le x l'
  end.

(** [sorted(l, key=...)] and [DataFrame.sort_values] on several columns
    are stable sorts; a stable sort is determined by its order, so the
    stable insertion sort computes the same list. *)
Fixpoint stable_sort {A} (le : A -> A -> bool) (l : list A) : list A :=
  match l with
  | [] => []
  | x :: l' => insert le x (stable_sort le l')
  end.

(** [sorted(l, key=key)] with string keys. *)
Definition sorted {A} (key : A -> string) (l : list A) : list A :=
  stable_sort (fun a b => String.leb (key a) (key b)) l.

End Py.

(** ** Data model *)

(** One [currency_info] dict built by [parse_currency_xml]: the keys
    ['iso4217'], ['from'], ['to'] come from [elem.get(k)], the key
    ['tender'] from [elem.get('tender', 'true')]. *)
Record Currency := mkCurrency {
  cur_iso4217 : option string;
  cur_from : option string;
  cur_to : option string;
  cur_tender : string
}.

(** ** Currency resolver *)

(** [determine_current_currency]; [current_date] is
    [date.today().strftime('%Y-%m-%d')]. *)
Fixpoint determine_current_currency (current_date : string)
    (currencies : list Currency) : option Currency :=
  match currencies with
  | [] => None
  | currency :: rest =>
      if String.eqb (cur_tender currency) "false" then
        determine_current_currency current_date rest
      else if negb (Py.truthy (cur_to currency)) then Some currency
      else
        let to_date := Py.or_else (cur_to currency) "" in
        if Py.ge to_date current_date then Some currency
        else determine_current_currency current_date rest
  end.

(** The sort key of [get_all_currencies]: [x['from'] or '0000-01-01']. *)
Definition from_key (x : Currency) : string :=
  Py.or_else (cur_from x) "0000-01-01".

(** [get_all_currencies]. *)
Definition get_all_currencies (currencies : list Currency) : list Currency :=
  let all_currencies :=
    List.filter
      (fun currency => negb (String.eqb (cur_tender currency) "false"))
      currencies in
  Py.sorted from_key all_currencies.

(** [is_valid_region]; [country_info] is the record found for the region
    in the country table, or [{}]. *)
Definition is_valid_region (region_code : string)
    (country_info : gmap string string) : bool :=
  let country_name := default "Unknown" (country_info !! "name") in
  if String.eqb country_name "Unknown" || String.eqb country_name ""
     || String.eqb country_name "" then false
  else if bool_decide (country_info = ∅) then false
  else true.

(** The status label computed inline by both historical generators. *)
Definition status (current_date : string) (currency : Currency) : string :=
  if negb (Py.truthy (cur_to currency)) then "Active"
  else if Py.ge (Py.or_else (cur_to currency) "") current_date then "Active"
  else "Historical".

(** ** Rows and entries of the four views *)

(** A row of [current_currencies.csv]. *)
Module Current.
Record row := mk {
  country_code : string;
  country_name : option string;
  official_country_name : option string;
  iso_alpha3_code : string;
  currency_code : option string;
  currency_name : option string;
  active_since : string;
  last_updated : string
}.

(** The row with its generation timestamp blanked. *)
Definition mask (r : row) : row :=
  mk (country_code r) (country_name r) (official_country_name r)
     (iso_alpha3_code r) (currency_code r) (currency_name r)
     (active_since r) "".
End Current.

(** A row of [historical_currencies.csv]. *)
Module Historical.
Record row := mk {
  country_code : string;
  country_name : option string;
  official_country_name : option string;
  iso_alpha3_code : string;
  currency_code : option string;
  currency_name : option string;
  active_from : string;
  active_until : string;
  status : string;
  last_updated : string
}.

Definition mask (r : row) : row :=
  mk (country_code r) (country_name r) (official_country_name r)
     (iso_alpha3_code r) (currency_code r) (currency_name r)
     (active_from r) (active_until r) (status r) "".

(** [sort_values(['country_code', 'status', 'active_from'],
    ascending=[True, False, True])]: the comparison of two rows, the
    second column reversed. *)
Definition sort_compare (a b : row) : comparison :=
  match String.compare (country_code a) (country_code b) with
  | Eq =>
      match String.compare (status b) (status a) with
      | Eq => String.compare (active_from a) (active_from b)
      | c => c
      end
  | c => c
  end.

Definition sort_le (a b : row) : bool :=
  match sort_compare a b with Gt => false | _ => true end.

Definition sort_values (df : list row) : list row :=
  Py.stable_sort sort_le df.
End Historical.

(** A value of [current_currencies.json]. *)
Module CurrentJson.
Record entry := mk {
  country_name : option string;
  official_country_name : option string;
  iso_alpha3_code : string;
  currency_code : option string;
  currency_name : option string;
  active_since : string
}.
End CurrentJson.

(** A value of [historical_currencies.json] and the elements of its
    ['currencies'] list. *)
Module HistoricalJson.
Record item := mkItem {
  currency_code : option string;
  currency_name : option string;
  active_from : string;
  active_until : string;
  status : string
}.

Record entry := mk {
  country_name : option string;
  official_country_name : option string;
  iso_alpha3_code : string;
  currencies : list item
}.
End HistoricalJson.

(** ** View generators *)

Section Views.

(** [self.iso3166_data] and [self.iso4217_data]. *)
Variable iso3166_data : gmap string (gmap string string).
Variable iso4217_data : gmap string (gmap string string).

(** [date.today().strftime('%Y-%m-%d')], the same day for the whole
    run. *)
Variable current_date : string.

(** [datetime.now(timezone.utc).isoformat()]: [now k] is the k-th
    reading of the clock; the generators thread the number of readings
    made so far. *)
Variable now : nat -> string.

(** [self.iso3166_data.get(region_code, {})]. *)
Definition country_info_of (region_code : string) : gmap string string :=
  default ∅ (iso3166_data !! region_code).

(** [self.iso4217_data.get(code, {})]; the key [None] is in no table. *)
Definition currency_info_of (code : option string) : gmap string string :=
  match code with
  | Some c => default ∅ (iso4217_data !! c)
  | None => ∅
  end.

(** [country_info.get('official_name', country_info.get('name'))]. *)
Definition official_name_of (country_info : gmap string string)
    : option string :=
  match country_info !! "official_name" with
  | Some n => Some n
  | None => country_info !! "name"
  end.

(** [currency_info.get('name', currency['iso4217'])]. *)
Definition currency_name_of (currency : Currency) : option string :=
  match currency_info_of (cur_iso4217 currency) !! "name" with
  | Some n => Some n
  | None => cur_iso4217 currency
  end.

Definition current_row (region_code : string) (current_currency : Currency)
    (stamp : string) : Current.row :=
  let country_info := country_info_of region_code in
  Current.mk region_code (country_info !! "name")
    (official_name_of country_info)
    (default "" (country_info !! "alpha_3"))
    (cur_iso4217 current_currency)
    (currency_name_of current_currency)
    (Py.or_else (cur_from current_currency) "Unknown")
    stamp.

(** The loop of [generate_current_currencies_csv] from clock reading
    [tick] on. *)
Fixpoint current_rows (tick : nat)
    (items : list (string * list Currency)) : list Current.row :=
  match items with
  | [] => []
  | (region_code, currencies) :: rest =>
      if negb (is_valid_region region_code (country_info_of region_code))
      then current_rows tick rest
      else
        match determine_current_currency current_date currencies with
        | Some current_currency =>
            current_row region_code current_currency (now tick)
              :: current_rows (S tick) rest
        | None => current_rows tick rest
        end
  end.

Definition generate_current_currencies_csv (tick : nat)
    (currency_data : list (string * list Currency)) : list Current.row :=
  current_rows tick currency_data.

Definition historical_row (region_code : string) (currency : Currency)
    (stamp : string) : Historical.row :=
  let country_info := country_info_of region_code in
  Historical.mk region_code (country_info !! "name")
    (official_name_of country_info)
    (default "" (country_info !! "alpha_3"))
    (cur_iso4217 currency)
    (currency_name_of currency)
    (Py.or_else (cur_from currency) "Unknown")
    (Py.or_else (cur_to currency) "")
    (status current_date currency)
    stamp.

(** The inner loop of [generate_historical_currencies_csv]: one row per
    currency, each with its own clock reading. *)
Fixpoint region_rows (region_code : string) (tick : nat)
    (all_currencies : list Currency) : list Historical.row :=
  match all_currencies with
  | [] => []
  | currency :: rest =>
      historical_row region_code currency (now tick)
        :: region_rows region_code (S tick) rest
  end.

(** The outer loop of [generate_historical_currencies_csv]. *)
Fixpoint historical_rows (tick : nat)
    (items : list (string * list Currency)) : list Historical.row :=
  match items with
  | [] => []
  | (region_code, currencies) :: rest =>
      if negb (is_valid_region region_code (country_info_of region_code))
      then historical_rows tick rest
      else
        let all_currencies := get_all_currencies currencies in
        region_rows region_code tick all_currencies
          ++ historical_rows (tick + List.length all_currencies) rest
  end.

Definition generate_historical_currencies_csv (tick : nat)
    (currency_data : list (string * list Currency)) : list Historical.row :=
  let df := historical_rows tick currency_data in
  match df with
  | [] => df
  | _ => Historical.sort_values df
  end.

(** One iteration of the loop of [generate_current_currencies_json] over
    the dict [data] being built. *)
Definition current_json_step (data : gmap string CurrentJson.entry)
    (item : string * list Currency) : gmap string CurrentJson.entry :=
  let '(region_code, currencies) := item in
  let country_info := country_info_of region_code in
  if negb (is_valid_region region_code country_info) then data
  else
    match determine_current_currency current_date currencies with
    | Some current_currency =>
        <[region_code :=
            CurrentJson.mk (country_info !! "name")
              (official_name_of country_info)
              (default "" (country_info !! "alpha_3"))
              (cur_iso4217 current_currency)
              (currency_name_of current_currency)
              (Py.or_else (cur_from current_currency) "Unknown")]> data
    | None => data
    end.

(** [generate_current_currencies_json]. *)
Definition generate_current_currencies_json
    (currency_data : list (string * list Currency))
    : gmap string CurrentJson.entry :=
  fold_left current_json_step currency_data ∅.

Definition historical_item (currency : Currency) : HistoricalJson.item :=
  HistoricalJson.mkItem (cur_iso4217 currency)
    (currency_name_of currency)
    (Py.or_else (cur_from currency) "Unknown")
    (Py.or_else (cur_to currency) "")
    (status current_date currency).

(** One iteration of the loop of [generate_historical_currencies_json]. *)
Definition historical_json_step (data : gmap string HistoricalJson.entry)
    (item : string * list Currency) : gmap string HistoricalJson.entry :=
  let '(region_code, currencies) := item in
  let country_info := country_info_of region_code in
  if negb (is_valid_region region_code country_info) then data
  else
    let currency_list :=
      List.map historical_item (get_all_currencies currencies) in
    match currency_list with
    | [] => data
    | _ =>
        <[region_code :=
            HistoricalJson.mk (country_info !! "name")
              (official_name_of country_info)
              (default "" (country_info !! "alpha_3"))
              currency_list]> data
    end.

(** [generate_historical_currencies_json]. *)
Definition generate_historical_currencies_json
    (currency_data : list (string * list Currency))
    : gmap string HistoricalJson.entry :=
  fold_left historical_json_step currency_data ∅.

End Views.

(** ** Reference loader *)

(** Exceptions, results and [try ... except Exception]. *)
Module Exn.

(** A raised exception is an instance of [Exception] ([OSError],
    [AttributeError], [ValueError], ...) or of [BaseException] only
    ([KeyboardInterrupt], [SystemExit]). *)
Inductive exn :=
| Exception (name : string)
| BaseException (name : string).

Inductive result (A : Type) :=
| Return (a : A)
| Raise (e : exn).
Arguments Return {A} a.
Arguments Raise {A} e.

#[global] Instance result_ret : MRet result := fun A a => Return a.
#[global] Instance result_bind : MBind result := fun A B k c =>
  match c with
  | Return a => k a
  | Raise e => Raise e
  end.

(** [try: body except Exception as e: return handler]. *)
Definition try_except_Exception {A} (body : result A) (handler : A)
    : result A :=
  match body with
  | Raise (Exception _) => Return handler
  | _ => body
  end.

(** What a [for] loop sees of the iterable: it is exhausted, it yields
    an object, or producing the next object raises. *)
Inductive iterator (A : Type) :=
| Stop
| Next (a : A) (rest : iterator A)
| Throw (e : exn).
Arguments Stop {A}.
Arguments Next {A} a rest.
Arguments Throw {A} e.

(** [obj.attr] on an object with the given attributes. *)
Definition getattr (obj : gmap string string) (attr : string)
    : result string :=
  match obj !! attr with
  | Some v => Return v
  | None => Raise (Exception "AttributeError")
  end.

End Exn.
Import Exn.

(** The body of the [try] of [fetch_iso3166_data]; the right-hand side of
    the assignment is evaluated before its subscript, and the default of
    [getattr(country, 'official_name', country.name)] before the call. *)
Fixpoint iso3166_loop (countries_db : iterator (gmap string string))
    (countries : gmap string (gmap string string))
    : result (gmap string (gmap string string)) :=
  match countries_db with
  | Stop => Return countries
  | Throw e => Raise e
  | Next country rest =>
      alpha_2 ← getattr country "alpha_2";
      alpha_3 ← getattr country "alpha_3";
      name ← getattr country "name";
      fallback ← getattr country "name";
      let official_name := default fallback (country !! "official_name") in
      key ← getattr country "alpha_2";
      iso3166_loop rest
        (<[key := {[ "alpha_2" := alpha_2; "alpha_3" := alpha_3;
                     "name" := name; "official_name" := official_name ]}]>
           countries)
  end.

(** [fetch_iso3166_data] over the [pycountry.countries] database. *)
Definition fetch_iso3166_data (countries_db : iterator (gmap string string))
    : result (gmap string (gmap string string)) :=
  try_except_Exception (iso3166_loop countries_db ∅) ∅.

(** The body of the [try] of [fetch_iso4217_data]. *)
Fixpoint iso4217_loop (currencies_db : iterator (gmap string string))
    (currencies : gmap string (gmap string string))
    : result (gmap string (gmap string string)) :=
  match currencies_db with
  | Stop => Return currencies
  | Throw e => Raise e
  | Next currency rest =>
      code ← getattr currency "alpha_3";
      name ← getattr currency "name";
      numeric ← getattr currency "numeric";
      key ← getattr currency "alpha_3";
      iso4217_loop rest
        (<[key := {[ "code" := code; "name" := name;
                     "numeric" := numeric ]}]> currencies)
  end.

(** [fetch_iso4217_data] over the [pycountry.currencies] database. *)
Definition fetch_iso4217_data (currencies_db : iterator (gmap string string))
    : result (gmap string (gmap string string)) :=
  try_except_Exception (iso4217_loop currencies_db ∅) ∅.

(** ** Insertion-ordered dicts *)

(** A Python dict whose order of insertion matters, as a list of
    key-value pairs with distinct keys. *)
Module Dict.

(** [d.get(k)]. *)
Fixpoint get {V} (k : string) (d : list (string * V)) : option V :=
  match d with
  | [] => None
  | (k', v) :: d' => if String.eqb k' k then Some v else get k d'
  end.

(** [d[k] = v]: a key already present keeps its place and takes the new
    value, a new key goes last. *)
Fixpoint set {V} (k : string) (v : V) (d : list (string * V))
    : list (string * V) :=
  match d with
  | [] => [(k, v)]
  | (k', v') :: d' =>
      if String.eqb k' k then (k', v) :: d' else (k', v') :: set k v d'
  end.

End Dict.

(** ** Region-currency parser *)

(** An element of the parsed document: tag, attributes, children. *)
#[warnings="-register-all"]
Inductive Element :=
| mkElement (tag : string) (attrib : gmap string string)
    (children : list Element).

Definition tag (e : Element) : string :=
  match e with mkElement t _ _ => t end.

Definition attrib (e : Element) : gmap string string :=
  match e with mkElement _ a _ => a end.

Definition children (e : Element) : list Element :=
  match e with mkElement _ _ c => c end.

(** [elem.iter()]: the element and all elements below it, in document
    order. *)
Fixpoint iter (e : Element) : list Element :=
  match e with
  | mkElement _ _ c => e :: List.flat_map iter c
  end.

(** The elements a path [.//tag] ranges over: all elements below [e],
    [e] itself excluded. *)
Definition descendants (e : Element) : list Element :=
  List.flat_map iter (children e).

(** [e.find('.//t')]. *)
Definition find_descendant (t : string) (e : Element) : option Element :=
  List.find (fun x => String.eqb (tag x) t) (descendants e).

(** [e.findall('.//t')]. *)
Definition findall_descendants (t : string) (e : Element) : list Element :=
  List.filter (fun x => String.eqb (tag x) t) (descendants e).

(** [e.findall('t')]: the direct children with tag [t]. *)
Definition findall_children (t : string) (e : Element) : list Element :=
  List.filter (fun x => String.eqb (tag x) t) (children e).

(** The [currency_info] dict of one [currency] element. *)
Definition currency_info (currency_elem : Element) : Currency :=
  mkCurrency (attrib currency_elem !! "iso4217")
    (attrib currency_elem !! "from")
    (attrib currency_elem !! "to")
    (default "true" (attrib currency_elem !! "tender")).

(** The [currencies] list built for one [region] element. *)
Definition region_currencies (region_elem : Element) : list Currency :=
  List.map currency_info (findall_children "currency" region_elem).

(** One iteration of the loop over the [region] elements. *)
Definition parse_region (currency_data : list (string * list Currency))
    (region_elem : Element) : list (string * list Currency) :=
  let region_code := attrib region_elem !! "iso3166" in
  if negb (Py.truthy region_code) then currency_data
  else
    Dict.set (Py.or_else region_code "") (region_currencies region_elem)
      currency_data.

(** [parse_currency_xml] from the root element on. *)
Definition parse_currency_tree (root : Element)
    : result (list (string * list Currency)) :=
  match find_descendant "currencyData" root with
  | None => Raise (Exception "ValueError")
  | Some currency_data_elem =>
      Return
        (fold_left parse_region
           (findall_descendants "region" currency_data_elem) [])
  end.

(** [parse_currency_xml]; [fromstring] is [ET.fromstring], which returns
    the root element or raises [ParseError]; the handler logs and raises
    again. *)
Definition parse_currency_xml (fromstring : string -> result Element)
    (xml_content : string) : result (list (string * list Currency)) :=
  root ← fromstring xml_content;
  parse_currency_tree root.

(** ** Simplified mappings *)

Module Mappings.
Record t := mk {
  countries : gmap string string;
  currencies : gmap string string;
  alpha2_to_alpha3 : gmap string string
}.
End Mappings.

(** [{code: data['name'] for code, data in table.items()}]: the
    comprehension raises [KeyError] when a record has no ['name'],
    whatever the order of the items. *)
Definition names_of (table : gmap string (gmap string string))
    : result (gmap string string) :=
  if decide (map_Forall (fun _ data => is_Some (data !! "name")) table)
  then Return (omap (fun data : gmap string string => data !! "name") table)
  else Raise (Exception "KeyError").

(** [data['alpha_3']] for the records where [data.get('alpha_3')] is
    true. *)
Definition alpha_3_of (data : gmap string string) : option string :=
  if Py.truthy (data !! "alpha_3") then data !! "alpha_3" else None.

(** [generate_iso_mappings]. *)
Definition generate_iso_mappings
    (iso3166_data iso4217_data : gmap string (gmap string string))
    : result Mappings.t :=
  country_names ← names_of iso3166_data;
  currency_names ← names_of iso4217_data;
  mret (Mappings.mk country_names currency_names
          (omap alpha_3_of iso3166_data)).

(** A [currencyData] section with a region listed twice, a region
    without code and a currency without tender attribute, and a document
    holding it. *)
Definition sample_section : Element :=
  mkElement "currencyData" ∅
    [mkElement "fractions" ∅ [];
     mkElement "region" {[ "iso3166" := "FR" ]}
       [mkElement "currency" {[ "iso4217" := "FRF" ]} []];
     mkElement "region" {[ "iso3166" := "US" ]}
       [mkElement "currency"
          {[ "iso4217" := "USD"; "from" := "1792-01-01" ]} [];
        mkElement "currency"
          {[ "iso4217" := "USN"; "tender" := "false" ]} []];
     mkElement "region" ∅
       [mkElement "currency" {[ "iso4217" := "XXX" ]} []];
     mkElement "region" {[ "iso3166" := "FR" ]}
       [mkElement "currency"
          {[ "iso4217" := "EUR"; "from" := "1999-01-01" ]} [];
        mkElement "alias" ∅ []]].

Definition sample_document : Element :=
  mkElement "supplementalData" ∅
    [mkElement "version" ∅ []; sample_section].

(** The history parsed from the sample document. *)
Definition sample_parsed : list (string * list Currency) :=
  [("FR", [mkCurrency (Some "EUR") (Some "1999-01-01") None "true"]);
   ("US", [mkCurrency (Some "USD") (Some "1792-01-01") None "true";
           mkCurrency (Some "USN") None None "false"])].

(** The objects an iteration yields before it stops or raises. *)
Fixpoint yielded {A} (it : iterator A) : list A :=
  match it with
  | Next a rest => a :: yielded rest
  | _ => []
  end.

(** A record of the country table as the loader builds it: the four
    fields are there and ['alpha_2'] is the key. *)
Definition country_record (key : string) (data : gmap string string) : Prop :=
  data !! "alpha_2" = Some key /\ is_Some (data !! "alpha_3")
  /\ is_Some (data !! "name") /\ is_Some (data !! "official_name").

(** A record of the currency table as the loader builds it. *)
Definition currency_record (key : string) (data : gmap string string)
    : Prop :=
  data !! "code" = Some key /\ is_Some (data !! "name")
  /\ is_Some (data !! "numeric").

(** The iteration ends by exhaustion, without raising. *)
Fixpoint exhausted {A} (it : iterator A) : bool :=
  match it with
  | Stop => true
  | Next _ rest => exhausted rest
  | Throw _ => false
  end.

(** The object has all the attributes of the list. *)
Definition has_attrs (needed : list string) (obj : gmap string string)
    : Prop :=
  List.Forall (fun a => is_Some (obj !! a)) needed.

(** The record the country loader stores for a database object: the
    official name falls back to the name. *)
Definition country_of (country : gmap string string) : gmap string string :=
  {[ "alpha_2" := default "" (country !! "alpha_2");
     "alpha_3" := default "" (country !! "alpha_3");
     "name" := default "" (country !! "name");
     "official_name" :=
       default (default "" (country !! "name"))
         (country !! "official_name") ]}.

(** The record the currency loader stores for a database object. *)
Definition currency_of (currency : gmap string string)
    : gmap string string :=
  {[ "code" := default "" (currency !! "alpha_3");
     "name" := default "" (currency !! "name");
     "numeric" := default "" (currency !! "numeric") ]}.

(** Two databases that load. *)
Definition good_countries : iterator (gmap string string) :=
  Next {[ "alpha_2" := "FR"; "alpha_3" := "FRA"; "name" := "France";
          "official_name" := "French Republic" ]}
    (Next {[ "alpha_2" := "XK"; "alpha_3" := "XKX"; "name" := "Kosovo" ]}
       Stop).

Definition good_currencies : iterator (gmap string string) :=
  Next {[ "alpha_3" := "EUR"; "name" := "Euro"; "numeric" := "978" ]} Stop.

(** The tables they load to. *)
Definition good_country_table : gmap string (gmap string string) :=
  {[ "FR" := country_of {[ "alpha_2" := "FR"; "alpha_3" := "FRA";
                           "name" := "France";
                           "official_name" := "French Republic" ]};
     "XK" := country_of {[ "alpha_2" := "XK"; "alpha_3" := "XKX";
                           "name" := "Kosovo" ]} ]}.

Definition good_currency_table : gmap string (gmap string string) :=
  {[ "EUR" := currency_of {[ "alpha_3" := "EUR"; "name" := "Euro";
                             "numeric" := "978" ]} ]}.

(** ** Calendar dates as strings *)

Definition is_digit (c : ascii) : bool :=
  (48 <=? N_of_ascii c)%N && (N_of_ascii c <=? 57)%N.

Definition digit_value (c : ascii) : N := (N_of_ascii c - 48)%N.

(** A date as [strftime('%Y-%m-%d')] and the source document write it:
    [YYYY-MM-DD] with a month in 01..12 and a day in 01..31. *)
Definition is_iso_date (s : string) : bool :=
  match list_ascii_of_string s with
  | [y1; y2; y3; y4; h1; m1; m2; h2; d1; d2] =>
      forallb is_digit [y1; y2; y3; y4; m1; m2; d1; d2]
      && Ascii.eqb h1 "-" && Ascii.eqb h2 "-"
      && (1 <=? 10 * digit_value m1 + digit_value m2)%N
      && (10 * digit_value m1 + digit_value m2 <=? 12)%N
      && (1 <=? 10 * digit_value d1 + digit_value d2)%N
      && (10 * digit_value d1 + digit_value d2 <=? 31)%N
  | _ => false
  end.

(** The number [YYYYMMDD] a date string spells; on calendar dates it grows
    with the date. *)
Definition date_value (s : string) : N :=
  match list_ascii_of_string s with
  | [y1; y2; y3; y4; _; m1; m2; _; d1; d2] =>
      fold_left (fun acc c => 10 * acc + digit_value c)
        [y1; y2; y3; y4; m1; m2; d1; d2] 0
  | _ => 0
  end%N.

(** ** Vocabulary of the properties *)

(** An entry counts as tender unless its tender field is ["false"]. *)
Definition is_tender (c : Currency) : Prop := cur_tender c <> "false".

(** An optional attribute is absent when it is missing or empty, the two
    values Python takes as false. *)
Definition absent (v : option string) : Prop := v = None \/ v = Some "".

(** [validTo] is absent, or on or after [current_date]. *)
Definition still_valid (current_date : string) (c : Currency) : Prop :=
  absent (cur_to c)
  \/ exists to_date, cur_to c = Some to_date
                     /\ String.leb current_date to_date = true.

(** The entries [determine_current_currency] may select. *)
Definition qualifies (current_date : string) (c : Currency) : Prop :=
  is_tender c /\ still_valid current_date c.

(** The earliest date that can be written [YYYY-MM-DD]. *)
Definition minimum_date : string := "0000-01-01".

(** [validFrom], an absent one taken as the minimum date. *)
Definition valid_from_or_minimum (c : Currency) : string :=
  match cur_from c with
  | None => minimum_date
  | Some d => if String.eqb d "" then minimum_date else d
  end.

(** [validFrom] is absent or a calendar date. *)
Definition dated_from (c : Currency) : Prop :=
  absent (cur_from c)
  \/ exists d, cur_from c = Some d /\ is_iso_date d = true.

(** The name [is_valid_region] resolves for a region:
    [country_info.get('name', 'Unknown')] of the region's record or of
    [{}]. *)
Definition resolved_name (iso3166_data : gmap string (gmap string string))
    (region_code : string) : string :=
  default "Unknown" (country_info_of iso3166_data region_code !! "name").

(** The currency codes listed for a region in the historical CSV view and
    in an entry of the historical JSON view. *)
Definition csv_currency_codes (region_code : string)
    (df : list Historical.row) : list (option string) :=
  List.map Historical.currency_code
    (List.filter (fun r => String.eqb (Historical.country_code r) region_code)
       df).

Definition json_currency_codes (e : HistoricalJson.entry)
    : list (option string) :=
  List.map HistoricalJson.currency_code (HistoricalJson.currencies e).

(** How the comparisons of three values relate in a total order. *)
Definition trans3 (x12 x23 x13 : comparison) : Prop :=
  (x12 = Eq -> x13 = x23) /\ (x23 = Eq -> x13 = x12)
  /\ (x12 = Lt -> x23 = Lt -> x13 = Lt)
  /\ (x12 = Gt -> x23 = Gt -> x13 = Gt).

(** Loading a reference table fails: the database cannot be read, at the
    start or after some well-formed records, or a record lacks one of the
    attributes the loader reads. *)
Inductive load_failure (needed : list string)
    : iterator (gmap string string) -> Prop :=
| unavailable (name : string) :
    load_failure needed (Throw (Exception name))
| malformed (obj : gmap string string) (rest : iterator (gmap string string))
    (attr : string) :
    In attr needed -> obj !! attr = None ->
    load_failure needed (Next obj rest)
| fails_later (obj : gmap string string)
    (rest : iterator (gmap string string)) :
    load_failure needed rest -> load_failure needed (Next obj rest).

(** A country database whose second record has no three-letter code. *)
Definition broken_countries : iterator (gmap string string) :=
  Next {[ "alpha_2" := "FR"; "alpha_3" := "FRA"; "name" := "France" ]}
    (Next {[ "alpha_2" := "XK"; "name" := "Kosovo" ]} Stop).

(** A currency database that cannot be read past its first record. *)
Definition broken_currencies : iterator (gmap string string) :=
  Next {[ "alpha_3" := "EUR"; "name" := "Euro"; "numeric" := "978" ]}
    (Throw (Exception "JSONDecodeError")).

(** What a row of the current CSV view says, as an entry of the current
    JSON view: the row without its region code and timestamp. *)
Definition current_entry_of_row (row : Current.row) : CurrentJson.entry :=
  CurrentJson.mk (Current.country_name row)
    (Current.official_country_name row) (Current.iso_alpha3_code row)
    (Current.currency_code row) (Current.currency_name row)
    (Current.active_since row).

(** What a row of the historical CSV view says, as an item of the
    historical JSON view. *)
Definition historical_item_of_row (row : Historical.row)
    : HistoricalJson.item :=
  HistoricalJson.mkItem (Historical.currency_code row)
    (Historical.currency_name row) (Historical.active_from row)
    (Historical.active_until row) (Historical.status row).

(** ** Sample data *)

Module Sample.

Definition iso3166_data : gmap string (gmap string string) :=
  {[ "FR" := {[ "alpha_2" := "FR"; "alpha_3" := "FRA"; "name" := "France";
                "official_name" := "French Republic" ]};
     "US" := {[ "alpha_2" := "US"; "alpha_3" := "USA";
                "name" := "United States";
                "official_name" := "United States of America" ]} ]}.

Definition iso4217_data : gmap string (gmap string string) :=
  {[ "EUR" := {[ "code" := "EUR"; "name" := "Euro"; "numeric" := "978" ]};
     "USD" := {[ "code" := "USD"; "name" := "US Dollar";
                 "numeric" := "840" ]} ]}.

Definition today : string := "2026-11-04".

(** Two clocks that never agree. *)
Definition now (k : nat) : string :=
  String.append "2026-11-04T00:00:0" (String (ascii_of_nat (48 + k)) "").

Definition later (k : nat) : string :=
  String.append "2026-11-05T12:00:0" (String (ascii_of_nat (48 + k)) "").

Definition frf : Currency :=
  mkCurrency (Some "FRF") (Some "1960-01-01") (Some "2002-02-17") "true".
Definition eur : Currency :=
  mkCurrency (Some "EUR") (Some "1999-01-01") None "true".
Definition xfo : Currency :=
  mkCurrency (Some "XFO") None (Some "1959-12-31") "true".
Definition xxx : Currency :=
  mkCurrency (Some "XXX") (Some "1900-01-01") None "false".
Definition usd : Currency :=
  mkCurrency (Some "USD") (Some "1792-01-01") None "true".
Definition usn : Currency :=
  mkCurrency (Some "USN") (Some "2003-01-01") None "False".
Definition uss : Currency :=
  mkCurrency (Some "USS") None (Some "2014-03-01") "0".

(** A parsed history: two known regions and one the country table does
    not have. *)
Definition currency_data : list (string * list Currency) :=
  [("US", [usd]); ("ZZ", [eur]); ("FR", [eur; xxx; frf; xfo])].

(** The entry of France in the historical JSON view. *)
Definition fr_entry : HistoricalJson.entry :=
  HistoricalJson.mk (Some "France") (Some "French Republic") "FRA"
    (List.map (historical_item iso4217_data today)
       (get_all_currencies [eur; xxx; frf; xfo])).

(** The historical row of [xfo], whose [validFrom] is absent. *)
Definition xfo_row : Historical.row :=
  historical_row iso3166_data iso4217_data today "FR" xfo (now 1).

End Sample.

(** Rows and entries of the views of the sample history. *)
Module SampleViews.

(** The row of the United States in the current CSV view. *)
Definition us_row : Current.row :=
  current_row Sample.iso3166_data Sample.iso4217_data "US" Sample.usd
    (Sample.now 0).

(** The entry of the United States in the current JSON view. *)
Definition us_entry : CurrentJson.entry := current_entry_of_row us_row.

(** The row of the euro for France in the historical CSV view. *)
Definition eur_row : Historical.row :=
  historical_row Sample.iso3166_data Sample.iso4217_data Sample.today "FR"
    Sample.eur (Sample.now 3).

End SampleViews.

(** * Properties *)

(** ** The order on strings *)

Lemma ascii_compare_refl (c : ascii) : Ascii.compare c c = Eq.
Proof. unfold Ascii.compare. apply N.compare_refl. Qed.

Lemma ascii_compare_lt_trans (a b c : ascii) :
  Ascii.compare a b = Lt -> Ascii.compare b c = Lt -> Ascii.compare a c = Lt.
Proof.
  unfold Ascii.compare. rewrite !N.compare_lt_iff. apply N.lt_trans.
Qed.

Lemma string_compare_refl (s : string) : String.compare s s = Eq.
Proof.
  induction s as [|c s IH]; simpl; [reflexivity|].
  now rewrite ascii_compare_refl.
Qed.

Lemma string_compare_lt_trans (s1 s2 s3 : string) :
  String.compare s1 s2 = Lt -> String.compare s2 s3 = Lt ->
  String.compare s1 s3 = Lt.
Proof.
  revert s2 s3.
  induction s1 as [|a s1 IH]; intros [|b s2] [|c s3]; simpl; try congruence.
  destruct (Ascii.compare a b) eqn:Eab; try congruence.
  - apply Ascii.compare_eq_iff in Eab. subst b.
    destruct (Ascii.compare a c); try congruence. apply IH.
  - intros _. destruct (Ascii.compare b c) eqn:Ebc; try congruence.
    + apply Ascii.compare_eq_iff in Ebc. subst c. now rewrite Eab.
    + now rewrite (ascii_compare_lt_trans _ _ _ Eab Ebc).
Qed.

Lemma string_leb_iff (s1 s2 : string) :
  String.leb s1 s2 = true <-> String.compare s1 s2 = Lt \/ s1 = s2.
Proof.
  unfold String.leb. split.
  - destruct (String.compare s1 s2) eqn:E; try discriminate.
    + apply String.compare_eq_iff in E. now right.
    + now left.
  - intros [-> | ->]; [reflexivity|]. now rewrite string_compare_refl.
Qed.

Lemma string_leb_refl (s : string) : String.leb s s = true.
Proof. apply string_leb_iff. now right. Qed.

Lemma string_leb_trans (s1 s2 s3 : string) :
  String.leb s1 s2 = true -> String.leb s2 s3 = true ->
  String.leb s1 s3 = true.
Proof.
  rewrite !string_leb_iff.
  intros [H12 | ->] [H23 | ->]; auto.
  left. eapply string_compare_lt_trans; eassumption.
Qed.

Lemma string_leb_false (s1 s2 : string) :
  String.leb s1 s2 = false -> String.leb s2 s1 = true.
Proof.
  intros H. destruct (String.leb_total s1 s2) as [H'|H']; congruence.
Qed.

(** ** The stable sort *)

Section StableSort.

Context {A : Type}.
Variable le : A -> A -> bool.

Lemma insert_perm (x : A) (l : list A) :
  Permutation (Py.insert le x l) (x :: l).
Proof.
  induction l as [|y l IH]; simpl; [reflexivity|].
  destruct (le x y); [reflexivity|].
  rewrite IH. apply perm_swap.
Qed.

Lemma stable_sort_perm (l : list A) : Permutation (Py.stable_sort le l) l.
Proof.
  induction l as [|x l IH]; simpl; [reflexivity|].
  rewrite insert_perm. now constructor.
Qed.

Lemma stable_sort_In (x : A) (l : list A) :
  In x (Py.stable_sort le l) <-> In x l.
Proof.
  split; apply Permutation_in;
    [apply stable_sort_perm | symmetry; apply stable_sort_perm].
Qed.

Lemma stable_sort_nil (l : list A) : Py.stable_sort le l = [] -> l = [].
Proof.
  intros H. apply Permutation_nil. rewrite <- H.
  apply stable_sort_perm.
Qed.

Hypothesis le_total : forall a b, le a b = false -> le b a = true.
Hypothesis le_trans :
  forall a b c, le a b = true -> le b c = true -> le a c = true.

Lemma insert_sorted (x : A) (l : list A) :
  StronglySorted (fun a b => le a b = true) l ->
  StronglySorted (fun a b => le a b = true) (Py.insert le x l).
Proof.
  induction 1 as [|y l Hs IH Hy]; simpl.
  - repeat constructor.
  - destruct (le x y) eqn:Exy.
    + constructor; [now constructor|].
      constructor; [assumption|].
      eapply List.Forall_impl; [|exact Hy]. intros z Hz. eauto.
    + constructor; [assumption|].
      rewrite insert_perm. constructor; auto.
Qed.

Lemma stable_sort_sorted (l : list A) :
  StronglySorted (fun a b => le a b = true) (Py.stable_sort le l).
Proof.
  induction l as [|x l IH]; simpl; [constructor|].
  now apply insert_sorted.
Qed.

(** Stability: elements that compare equal keep their relative
    order. *)
Lemma insert_filter_class (z x : A) (l : list A) :
  List.filter (fun y => le z y && le y z) (Py.insert le x l)
  = List.filter (fun y => le z y && le y z) (x :: l).
Proof.
  induction l as [|y l IH]; [reflexivity|].
  cbn [Py.insert]. destruct (le x y) eqn:Exy; [reflexivity|].
  cbn [List.filter] in *. rewrite IH.
  destruct (le z x && le x z) eqn:Ex; [|reflexivity].
  destruct (le z y && le y z) eqn:Ey; [|reflexivity].
  apply andb_prop in Ex as [_ Hxz]. apply andb_prop in Ey as [Hzy _].
  rewrite (le_trans _ _ _ Hxz Hzy) in Exy. discriminate.
Qed.

Lemma stable_sort_stable (z : A) (l : list A) :
  List.filter (fun y => le z y && le y z) (Py.stable_sort le l)
  = List.filter (fun y => le z y && le y z) l.
Proof.
  induction l as [|x l IH]; [reflexivity|].
  cbn [Py.stable_sort]. rewrite insert_filter_class.
  cbn [List.filter]. now rewrite IH.
Qed.

End StableSort.

(** ** Date strings *)

Lemma is_digit_bounds (c : ascii) :
  is_digit c = true -> (48 <= N_of_ascii c <= 57)%N.
Proof.
  unfold is_digit. rewrite andb_true_iff, !N.leb_le. tauto.
Qed.

Lemma digit_value_spec (c : ascii) :
  (48 <= N_of_ascii c <= 57)%N ->
  N_of_ascii c = (48 + digit_value c)%N /\ (digit_value c <= 9)%N.
Proof. unfold digit_value. lia. Qed.

Lemma is_iso_date_shape (s : string) :
  is_iso_date s = true ->
  exists y1 y2 y3 y4 m1 m2 d1 d2,
    s = String y1 (String y2 (String y3 (String y4 (String "-"
          (String m1 (String m2 (String "-" (String d1 (String d2 ""))))))))) /\
    List.Forall (fun c => 48 <= N_of_ascii c <= 57)%N
      [y1; y2; y3; y4; m1; m2; d1; d2] /\
    (1 <= 10 * digit_value m1 + digit_value m2 <= 12)%N /\
    (1 <= 10 * digit_value d1 + digit_value d2 <= 31)%N.
Proof.
  unfold is_iso_date. intros H.
  rewrite <- (string_of_list_ascii_of_string s).
  destruct (list_ascii_of_string s) as
    [|y1 [|y2 [|y3 [|y4 [|h1 [|m1 [|m2 [|h2 [|d1 [|d2 [|? ?]]]]]]]]]]];
    try discriminate.
  rewrite !andb_true_iff in H.
  destruct H as ((((((Hd & Hh1) & Hh2) & Hm1) & Hm2) & Hd1) & Hd2).
  apply Ascii.eqb_eq in Hh1, Hh2. subst h1 h2.
  apply N.leb_le in Hm1, Hm2, Hd1, Hd2.
  exists y1, y2, y3, y4, m1, m2, d1, d2. split; [reflexivity|].
  split; [|split; split; assumption].
  cbn [forallb] in Hd. rewrite !andb_true_iff in Hd.
  repeat (constructor; [apply is_digit_bounds; tauto|]). constructor.
Qed.

Ltac split_digits :=
  repeat match goal with
         | H : List.Forall _ (_ :: _) |- _ => inversion_clear H
         | H : List.Forall _ [] |- _ => clear H
         end;
  repeat match goal with
         | H : (48 <= N_of_ascii ?c <= 57)%N |- _ =>
             apply digit_value_spec in H; destruct H as [-> ?];
             generalize dependent (digit_value c); intros ? ?
         end.

Ltac compare_digits :=
  match goal with
  | |- match N.compare ?x ?y with _ => _ end = _ =>
      destruct (N.compare_spec x y); cbv iota;
      [ | symmetry; apply N.compare_lt_iff; lia
        | symmetry; apply N.compare_gt_iff; lia ]
  end.

(** On calendar dates the order of the strings is the order of the
    dates. *)
Lemma iso_date_compare (a b : string) :
  is_iso_date a = true -> is_iso_date b = true ->
  String.compare a b = N.compare (date_value a) (date_value b).
Proof.
  intros Ha Hb.
  destruct (is_iso_date_shape a Ha)
    as (a1 & a2 & a3 & a4 & a5 & a6 & a7 & a8 & -> & HA & _).
  destruct (is_iso_date_shape b Hb)
    as (b1 & b2 & b3 & b4 & b5 & b6 & b7 & b8 & -> & HB & _).
  clear Ha Hb. unfold date_value.
  cbn [list_ascii_of_string fold_left String.compare].
  change (Ascii.compare "-" "-") with Eq. cbv iota.
  unfold Ascii.compare. split_digits.
  do 8 compare_digits.
  symmetry; apply N.compare_eq_iff; lia.
Qed.

Lemma iso_date_leb (a b : string) :
  is_iso_date a = true -> is_iso_date b = true ->
  String.leb a b = true <-> (date_value a <= date_value b)%N.
Proof.
  intros Ha Hb. unfold String.leb. rewrite (iso_date_compare a b Ha Hb).
  unfold N.le. destruct (N.compare (date_value a) (date_value b));
    split; congruence.
Qed.

Lemma minimum_date_is_date : is_iso_date minimum_date = true.
Proof. reflexivity. Qed.

Lemma minimum_date_least (d : string) :
  is_iso_date d = true -> (date_value minimum_date <= date_value d)%N.
Proof.
  intros Hd.
  destruct (is_iso_date_shape d Hd)
    as (a1 & a2 & a3 & a4 & a5 & a6 & a7 & a8 & -> & HA & Hm & Hday).
  clear Hd. unfold date_value, minimum_date.
  cbn [list_ascii_of_string fold_left].
  change (digit_value "0") with 0%N. change (digit_value "1") with 1%N.
  revert Hm Hday. split_digits. lia.
Qed.

(** ** Currency resolver *)

Lemma truthy_false_iff (v : option string) :
  Py.truthy v = false <-> absent v.
Proof.
  unfold absent. destruct v as [s|]; simpl.
  - rewrite negb_false_iff, String.eqb_eq. split.
    + intros ->. now right.
    + intros [H|H]; congruence.
  - split; auto.
Qed.

Lemma truthy_true_inv (v : option string) (d : string) :
  Py.truthy v = true -> v = Some (Py.or_else v d) /\ Py.or_else v d <> "".
Proof.
  destruct v as [s|]; simpl; [|discriminate].
  rewrite negb_true_iff. intros H. rewrite H.
  apply String.eqb_neq in H. auto.
Qed.

Lemma is_tender_iff (c : Currency) :
  negb (String.eqb (cur_tender c) "false") = true <-> is_tender c.
Proof. unfold is_tender. now rewrite negb_true_iff, String.eqb_neq. Qed.

Lemma determine_cons_qualifies (current_date : string) (c : Currency)
    (rest : list Currency) :
  qualifies current_date c ->
  determine_current_currency current_date (c :: rest) = Some c.
Proof.
  intros [Ht Hv]. cbn [determine_current_currency].
  apply String.eqb_neq in Ht. rewrite Ht.
  destruct (Py.truthy (cur_to c)) eqn:Eto; [|reflexivity]. cbn [negb].
  destruct Hv as [Ha | (to_date & Hto & Hle)].
  - apply truthy_false_iff in Ha. congruence.
  - destruct (truthy_true_inv _ "" Eto) as [E _].
    rewrite Hto in E at 1. injection E as <-.
    unfold Py.ge. now rewrite Hle.
Qed.

Lemma determine_cons_skip (current_date : string) (c : Currency)
    (rest : list Currency) :
  ~ qualifies current_date c ->
  determine_current_currency current_date (c :: rest)
  = determine_current_currency current_date rest.
Proof.
  intros Hq. cbn [determine_current_currency].
  destruct (String.eqb (cur_tender c) "false") eqn:Et; [reflexivity|].
  apply String.eqb_neq in Et.
  destruct (Py.truthy (cur_to c)) eqn:Eto; cbn [negb].
  - destruct (truthy_true_inv _ "" Eto) as [E _].
    destruct (Py.ge (Py.or_else (cur_to c) "") current_date) eqn:Ege;
      [|reflexivity].
    exfalso. apply Hq. split; [exact Et|]. right. eauto.
  - exfalso. apply Hq. split; [exact Et|]. left.
    now apply truthy_false_iff.
Qed.

Lemma qualifies_dec (current_date : string) (c : Currency) :
  qualifies current_date c \/ ~ qualifies current_date c.
Proof.
  unfold qualifies, is_tender, still_valid, absent.
  destruct (string_dec (cur_tender c) "false") as [Et|Et]; [tauto|].
  destruct (cur_to c) as [t|]; [|left; auto].
  destruct (string_dec t "") as [->|Hne]; [left; auto|].
  destruct (String.leb current_date t) eqn:Ele.
  - left. split; [exact Et|]. right. eauto.
  - right. intros [_ [[H|H] | (t' & H & Hle)]]; congruence.
Qed.

Lemma determine_split (current_date : string) (currencies : list Currency) :
  match determine_current_currency current_date currencies with
  | Some c =>
      exists before after,
        currencies = (before ++ c :: after)%list
        /\ List.Forall (fun x => ~ qualifies current_date x) before
        /\ qualifies current_date c
  | None => List.Forall (fun x => ~ qualifies current_date x) currencies
  end.
Proof.
  induction currencies as [|c rest IH]; [constructor|].
  destruct (qualifies_dec current_date c) as [Hq|Hq].
  - rewrite (determine_cons_qualifies _ _ rest Hq).
    exists [], rest. split; [reflexivity|]. split; [constructor|exact Hq].
  - rewrite (determine_cons_skip _ _ rest Hq).
    destruct (determine_current_currency current_date rest) as [c'|].
    + destruct IH as (before & after & -> & Hb & Hc).
      exists (c :: before), after. split; [reflexivity|].
      split; [now constructor|exact Hc].
    + now constructor.
Qed.

(** C2. [determine_current_currency] returns the first entry, in the
    order of the list, that is tender and whose [validTo] is absent or on
    or after the current date, and [None] when no entry is such.  Dates
    are compared as strings; on calendar dates this is the order of the
    dates ([iso_date_leb]). *)
Theorem determine_current_currency_first (current_date : string)
    (currencies : list Currency) :
  match determine_current_currency current_date currencies with
  | Some c =>
      exists before after,
        currencies = (before ++ c :: after)%list
        /\ List.Forall (fun x => ~ qualifies current_date x) before
        /\ qualifies current_date c
  | None => List.Forall (fun x => ~ qualifies current_date x) currencies
  end.
Proof. apply determine_split. Qed.

(** C4. An entry returned by [determine_current_currency] never has the
    tender field ["false"]. *)
Theorem determine_current_currency_tender (current_date : string)
    (currencies : list Currency) (c : Currency) :
  determine_current_currency current_date currencies = Some c ->
  cur_tender c <> "false".
Proof.
  intros H.
  pose proof (determine_split current_date currencies) as F.
  rewrite H in F. destruct F as (_ & _ & _ & _ & Hq). apply Hq.
Qed.

Lemma determine_current_currency_tender_witness :
  cur_tender Sample.eur <> "false".
Proof.
  apply (determine_current_currency_tender Sample.today
           [Sample.xxx; Sample.frf; Sample.eur]).
  reflexivity.
Defined.

Lemma from_key_leb_total (a b : Currency) :
  String.leb (from_key a) (from_key b) = false ->
  String.leb (from_key b) (from_key a) = true.
Proof. apply string_leb_false. Qed.

Lemma from_key_leb_trans (a b c : Currency) :
  String.leb (from_key a) (from_key b) = true ->
  String.leb (from_key b) (from_key c) = true ->
  String.leb (from_key a) (from_key c) = true.
Proof. apply string_leb_trans. Qed.

Lemma get_all_currencies_perm (currencies : list Currency) :
  Permutation (get_all_currencies currencies)
    (List.filter (fun c => negb (String.eqb (cur_tender c) "false"))
       currencies).
Proof. unfold get_all_currencies, Py.sorted. apply stable_sort_perm. Qed.

Lemma get_all_currencies_In (currencies : list Currency) (c : Currency) :
  In c (get_all_currencies currencies) <-> In c currencies /\ is_tender c.
Proof.
  unfold get_all_currencies, Py.sorted.
  now rewrite stable_sort_In, filter_In, is_tender_iff.
Qed.

(** The output is in non-decreasing order of the sort key, whatever the
    strings are. *)
Lemma get_all_currencies_sorted_keys (currencies : list Currency) :
  StronglySorted
    (fun a b => String.leb (from_key a) (from_key b) = true)
    (get_all_currencies currencies).
Proof.
  unfold get_all_currencies, Py.sorted.
  apply stable_sort_sorted;
    [exact from_key_leb_total | exact from_key_leb_trans].
Qed.

Lemma string_eqb_leb (a b : string) :
  String.eqb a b = String.leb b a && String.leb a b.
Proof.
  destruct (String.eqb_spec a b) as [->|Hne].
  - now rewrite string_leb_refl.
  - destruct (String.leb b a) eqn:Eba, (String.leb a b) eqn:Eab;
      try reflexivity.
    exfalso. apply Hne. now apply String.leb_antisym.
Qed.

(** Entries with the same sort key stay in the order of the input. *)
Lemma get_all_currencies_stable (currencies : list Currency) (z : Currency) :
  List.filter (fun c => String.eqb (from_key c) (from_key z))
    (get_all_currencies currencies)
  = List.filter (fun c => String.eqb (from_key c) (from_key z))
      (List.filter (fun c => negb (String.eqb (cur_tender c) "false"))
         currencies).
Proof.
  unfold get_all_currencies, Py.sorted.
  set (l := List.filter _ currencies).
  rewrite !(filter_ext _ _ (fun c => string_eqb_leb (from_key c) (from_key z))).
  apply (stable_sort_stable
           (fun a b => String.leb (from_key a) (from_key b))
           from_key_leb_trans z).
Qed.

Lemma StronglySorted_weaken {A} (R R' : A -> A -> Prop) (P : A -> Prop)
    (l : list A) :
  (forall a b, P a -> P b -> R a b -> R' a b) ->
  List.Forall P l -> StronglySorted R l -> StronglySorted R' l.
Proof.
  intros HR HP Hs. induction Hs as [|a l Hs IH Ha]; [constructor|].
  inversion_clear HP as [|? ? Pa Pl].
  constructor; [auto|].
  rewrite List.Forall_forall in *. intros b Hb. auto.
Qed.

Lemma dated_from_key (c : Currency) :
  dated_from c -> is_iso_date (valid_from_or_minimum c) = true.
Proof.
  unfold dated_from, absent, valid_from_or_minimum.
  intros [[->| ->] | (d & -> & Hd)]; try reflexivity.
  destruct (String.eqb d ""); [reflexivity|exact Hd].
Qed.

Lemma from_key_valid_from (c : Currency) :
  from_key c = valid_from_or_minimum c.
Proof. reflexivity. Qed.

(** C3. [get_all_currencies] returns exactly the tender entries, in
    non-decreasing order of [validFrom], an absent [validFrom] standing
    for the minimum date, below which no calendar date lies.  The
    [validFrom] of a tender entry is absent or a calendar date. *)
Theorem get_all_currencies_sorted_tender (currencies : list Currency) :
  List.Forall (fun c => is_tender c -> dated_from c) currencies ->
  Permutation (get_all_currencies currencies)
    (List.filter (fun c => negb (String.eqb (cur_tender c) "false"))
       currencies)
  /\ (forall c, In c (get_all_currencies currencies)
                <-> In c currencies /\ is_tender c)
  /\ StronglySorted
       (fun a b => (date_value (valid_from_or_minimum a)
                    <= date_value (valid_from_or_minimum b))%N)
       (get_all_currencies currencies)
  /\ (forall d, is_iso_date d = true ->
                (date_value minimum_date <= date_value d)%N).
Proof.
  intros Hd. split; [apply get_all_currencies_perm|].
  split; [intros c; apply get_all_currencies_In|].
  split; [|exact minimum_date_least].
  apply (StronglySorted_weaken
           (fun a b => String.leb (from_key a) (from_key b) = true) _
           dated_from).
  - intros a b Ha Hb. rewrite !from_key_valid_from.
    apply iso_date_leb; now apply dated_from_key.
  - rewrite List.Forall_forall in *. intros c Hc.
    apply get_all_currencies_In in Hc as [Hc Ht]. now apply Hd.
  - apply get_all_currencies_sorted_keys.
Qed.

Lemma get_all_currencies_sorted_tender_witness :
  get_all_currencies [Sample.eur; Sample.xxx; Sample.frf; Sample.xfo]
  = [Sample.xfo; Sample.frf; Sample.eur]
  /\ StronglySorted
       (fun a b => (date_value (valid_from_or_minimum a)
                    <= date_value (valid_from_or_minimum b))%N)
       (get_all_currencies [Sample.eur; Sample.xxx; Sample.frf; Sample.xfo])
  /\ (date_value minimum_date <= date_value "1960-01-01")%N.
Proof.
  assert (Hd : List.Forall (fun c => is_tender c -> dated_from c)
                 [Sample.eur; Sample.xxx; Sample.frf; Sample.xfo]).
  { repeat apply List.Forall_cons; try apply List.Forall_nil; intros _.
    - right. exists "1999-01-01". split; reflexivity.
    - right. exists "1900-01-01". split; reflexivity.
    - right. exists "1960-01-01". split; reflexivity.
    - left. left. reflexivity. }
  destruct (get_all_currencies_sorted_tender _ Hd) as (_ & _ & Hs & Hm).
  split; [reflexivity|]. split; [exact Hs|]. apply Hm. reflexivity.
Defined.

(** C10. Only the exact string ["false"] makes an entry non-tender: an
    entry with any other tender field is kept by [get_all_currencies], and
    [determine_current_currency] returns it when it is the first entry
    still valid. *)
Theorem tender_unless_exactly_false (c : Currency) :
  cur_tender c <> "false" ->
  (forall currencies,
      In c currencies -> In c (get_all_currencies currencies))
  /\ (forall current_date before after,
         still_valid current_date c ->
         List.Forall (fun x => ~ qualifies current_date x) before ->
         determine_current_currency current_date (before ++ c :: after)%list
         = Some c).
Proof.
  intros Ht. split.
  - intros currencies Hin. apply get_all_currencies_In. now split.
  - intros current_date before after Hv Hb.
    induction Hb as [|x before Hx Hb IH]; cbn [app].
    + apply determine_cons_qualifies. now split.
    + now rewrite determine_cons_skip.
Qed.

Lemma tender_unless_exactly_false_witness :
  In Sample.usn (get_all_currencies [Sample.uss; Sample.usn])
  /\ determine_current_currency "2026-11-04" [Sample.uss; Sample.usn]
     = Some Sample.usn.
Proof.
  assert (Ht : cur_tender Sample.usn <> "false") by discriminate.
  destruct (tender_unless_exactly_false Sample.usn Ht) as [Hall Hcur].
  split.
  - apply Hall. simpl. auto.
  - apply (Hcur "2026-11-04" [Sample.uss] []).
    + left. left. reflexivity.
    + constructor; [|constructor].
      intros [_ [[H|H] | (t & H & Hle)]]; try discriminate.
      injection H as <-. discriminate.
Defined.

(** ** Sorting and mapping *)

Lemma map_insert {A B} (f : A -> B) (le : A -> A -> bool)
    (le' : B -> B -> bool) (x : A) (l : list A) :
  (forall a b, le' (f a) (f b) = le a b) ->
  List.map f (Py.insert le x l) = Py.insert le' (f x) (List.map f l).
Proof.
  intros Hle. induction l as [|y l IH]; [reflexivity|].
  cbn [Py.insert List.map]. rewrite Hle.
  destruct (le x y); cbn [List.map]; [reflexivity|]. now rewrite IH.
Qed.

Lemma map_stable_sort {A B} (f : A -> B) (le : A -> A -> bool)
    (le' : B -> B -> bool) (l : list A) :
  (forall a b, le' (f a) (f b) = le a b) ->
  List.map f (Py.stable_sort le l) = Py.stable_sort le' (List.map f l).
Proof.
  intros Hle. induction l as [|x l IH]; [reflexivity|].
  cbn [Py.stable_sort List.map]. rewrite <- IH. now apply map_insert.
Qed.

(** ** View generators *)

Section ViewFacts.

Variable iso3166_data : gmap string (gmap string string).
Variable iso4217_data : gmap string (gmap string string).
Variable current_date : string.

(** The guard on an empty frame changes nothing: sorting no row gives no
    row. *)
Lemma generate_historical_currencies_csv_sorted_rows (now : nat -> string)
    (tick : nat) (currency_data : list (string * list Currency)) :
  generate_historical_currencies_csv iso3166_data iso4217_data current_date
    now tick currency_data
  = Historical.sort_values
      (historical_rows iso3166_data iso4217_data current_date now tick
         currency_data).
Proof.
  unfold generate_historical_currencies_csv.
  now destruct (historical_rows _ _ _ _ _ _).
Qed.

Lemma sort_le_mask (a b : Historical.row) :
  Historical.sort_le (Historical.mask a) (Historical.mask b)
  = Historical.sort_le a b.
Proof. reflexivity. Qed.

Lemma current_rows_mask (now1 now2 : nat -> string) (tick1 tick2 : nat)
    (items : list (string * list Currency)) :
  List.map Current.mask
    (current_rows iso3166_data iso4217_data current_date now1 tick1 items)
  = List.map Current.mask
      (current_rows iso3166_data iso4217_data current_date now2 tick2 items).
Proof.
  revert tick1 tick2.
  induction items as [|[region_code currencies] rest IH]; intros tick1 tick2;
    [reflexivity|].
  cbn [current_rows].
  destruct (negb (is_valid_region _ _)); [apply IH|].
  destruct (determine_current_currency _ _); [|apply IH].
  cbn [List.map]. f_equal. apply IH.
Qed.

Lemma region_rows_mask (now1 now2 : nat -> string) (region_code : string)
    (tick1 tick2 : nat) (all_currencies : list Currency) :
  List.map Historical.mask
    (region_rows iso3166_data iso4217_data current_date now1 region_code
       tick1 all_currencies)
  = List.map Historical.mask
      (region_rows iso3166_data iso4217_data current_date now2 region_code
         tick2 all_currencies).
Proof.
  revert tick1 tick2.
  induction all_currencies as [|c rest IH]; intros tick1 tick2;
    [reflexivity|].
  cbn [region_rows List.map]. f_equal. apply IH.
Qed.

Lemma historical_rows_mask (now1 now2 : nat -> string) (tick1 tick2 : nat)
    (items : list (string * list Currency)) :
  List.map Historical.mask
    (historical_rows iso3166_data iso4217_data current_date now1 tick1 items)
  = List.map Historical.mask
      (historical_rows iso3166_data iso4217_data current_date now2 tick2
         items).
Proof.
  revert tick1 tick2.
  induction items as [|[region_code currencies] rest IH]; intros tick1 tick2;
    [reflexivity|].
  cbn [historical_rows].
  destruct (negb (is_valid_region _ _)); [apply IH|].
  cbv zeta. rewrite !List.map_app. f_equal; [apply region_rows_mask|apply IH].
Qed.

(** C7. Two runs over the same history, reference tables and current
    date produce the same rows in the same order in the current and in
    the historical view, once the generation timestamp is masked; the
    runs may read any clocks. *)
Theorem views_independent_of_clock (now1 now2 : nat -> string)
    (tick1 tick2 : nat) (currency_data : list (string * list Currency)) :
  List.map Current.mask
    (generate_current_currencies_csv iso3166_data iso4217_data current_date
       now1 tick1 currency_data)
  = List.map Current.mask
      (generate_current_currencies_csv iso3166_data iso4217_data
         current_date now2 tick2 currency_data)
  /\ List.map Historical.mask
       (generate_historical_currencies_csv iso3166_data iso4217_data
          current_date now1 tick1 currency_data)
     = List.map Historical.mask
         (generate_historical_currencies_csv iso3166_data iso4217_data
            current_date now2 tick2 currency_data).
Proof.
  split.
  - apply current_rows_mask.
  - rewrite !generate_historical_currencies_csv_sorted_rows.
    unfold Historical.sort_values.
    rewrite !(map_stable_sort Historical.mask Historical.sort_le
                Historical.sort_le _ sort_le_mask).
    f_equal. apply historical_rows_mask.
Qed.

(** Where the rows come from. *)

Lemma region_rows_In (now : nat -> string) (region_code : string) (tick : nat)
    (all_currencies : list Currency) (row : Historical.row) :
  In row (region_rows iso3166_data iso4217_data current_date now region_code
            tick all_currencies) ->
  exists c k, In c all_currencies
              /\ row = historical_row iso3166_data iso4217_data current_date
                         region_code c (now k).
Proof.
  revert tick. induction all_currencies as [|c rest IH]; intros tick;
    cbn [region_rows]; [intros []|].
  intros [<-|Hin].
  - exists c, tick. split; [now left|reflexivity].
  - destruct (IH _ Hin) as (c' & k & Hc & ->).
    exists c', k. split; [now right|reflexivity].
Qed.

Lemma region_rows_complete (now : nat -> string) (region_code : string)
    (tick : nat) (all_currencies : list Currency) (c : Currency) :
  In c all_currencies ->
  exists k, In (historical_row iso3166_data iso4217_data current_date
                  region_code c (now k))
              (region_rows iso3166_data iso4217_data current_date now
                 region_code tick all_currencies).
Proof.
  revert tick. induction all_currencies as [|c' rest IH]; intros tick;
    [intros []|].
  cbn [region_rows]. intros [->|Hin].
  - exists tick. now left.
  - destruct (IH (S tick) Hin) as [k Hk]. exists k. now right.
Qed.

Lemma historical_rows_In (now : nat -> string) (tick : nat)
    (items : list (string * list Currency)) (row : Historical.row) :
  In row (historical_rows iso3166_data iso4217_data current_date now tick
            items) ->
  exists region_code currencies c k,
    In (region_code, currencies) items
    /\ is_valid_region region_code (country_info_of iso3166_data region_code)
       = true
    /\ In c (get_all_currencies currencies)
    /\ row = historical_row iso3166_data iso4217_data current_date
               region_code c (now k).
Proof.
  revert tick.
  induction items as [|[region_code currencies] rest IH]; intros tick;
    cbn [historical_rows]; [intros []|].
  destruct (is_valid_region _ _) eqn:Ev; cbn [negb]; cbv zeta.
  - rewrite in_app_iff. intros [Hin|Hin].
    + destruct (region_rows_In _ _ _ _ _ Hin) as (c & k & Hc & ->).
      exists region_code, currencies, c, k. split; [now left|auto].
    + destruct (IH _ Hin) as (rc & cs & c & k & Hi & Hv & Hc & ->).
      exists rc, cs, c, k. split; [now right|auto].
  - intros Hin.
    destruct (IH _ Hin) as (rc & cs & c & k & Hi & Hv & Hc & ->).
    exists rc, cs, c, k. split; [now right|auto].
Qed.

Lemma historical_rows_complete (now : nat -> string) (tick : nat)
    (items : list (string * list Currency)) (region_code : string)
    (currencies : list Currency) (c : Currency) :
  In (region_code, currencies) items ->
  is_valid_region region_code (country_info_of iso3166_data region_code)
  = true ->
  In c (get_all_currencies currencies) ->
  exists k, In (historical_row iso3166_data iso4217_data current_date
                  region_code c (now k))
              (historical_rows iso3166_data iso4217_data current_date now
                 tick items).
Proof.
  intros Hin Hv Hc. revert tick.
  induction items as [|[rc cs] rest IH]; intros tick; [destruct Hin|].
  cbn [historical_rows]. destruct Hin as [E|Hin].
  - injection E as -> ->. rewrite Hv. cbn [negb]. cbv zeta.
    destruct (region_rows_complete now region_code tick _ c Hc) as [k Hk].
    exists k. apply in_or_app. now left.
  - destruct (negb (is_valid_region rc _)); [now apply IH|]. cbv zeta.
    destruct (IH Hin (tick + List.length (get_all_currencies cs)))
      as [k Hk].
    exists k. apply in_or_app. now right.
Qed.

Lemma current_rows_In (now : nat -> string) (tick : nat)
    (items : list (string * list Currency)) (row : Current.row) :
  In row (current_rows iso3166_data iso4217_data current_date now tick
            items) ->
  exists region_code currencies c k,
    In (region_code, currencies) items
    /\ is_valid_region region_code (country_info_of iso3166_data region_code)
       = true
    /\ determine_current_currency current_date currencies = Some c
    /\ row = current_row iso3166_data iso4217_data region_code c (now k).
Proof.
  revert tick.
  induction items as [|[region_code currencies] rest IH]; intros tick;
    cbn [current_rows]; [intros []|].
  assert (Hrest : forall t,
             In row (current_rows iso3166_data iso4217_data current_date now
                       t rest) ->
             exists region_code0 currencies0 c k,
               In (region_code0, currencies0)
                 ((region_code, currencies) :: rest)
               /\ is_valid_region region_code0
                    (country_info_of iso3166_data region_code0) = true
               /\ determine_current_currency current_date currencies0 = Some c
               /\ row = current_row iso3166_data iso4217_data region_code0 c
                          (now k)).
  { intros t Hin.
    destruct (IH _ Hin) as (rc & cs & c & k & Hi & Hv & Hc & ->).
    exists rc, cs, c, k. split; [now right|auto]. }
  destruct (is_valid_region _ _) eqn:Ev; cbn [negb]; [|apply Hrest].
  destruct (determine_current_currency _ _) as [c|] eqn:Ed; [|apply Hrest].
  intros [<-|Hin]; [|now apply (Hrest (S tick))].
  exists region_code, currencies, c, tick. split; [now left|auto].
Qed.

Lemma generate_historical_currencies_csv_In (now : nat -> string)
    (tick : nat) (currency_data : list (string * list Currency))
    (row : Historical.row) :
  In row (generate_historical_currencies_csv iso3166_data iso4217_data
            current_date now tick currency_data)
  <-> In row (historical_rows iso3166_data iso4217_data current_date now
                tick currency_data).
Proof.
  rewrite generate_historical_currencies_csv_sorted_rows.
  apply stable_sort_In.
Qed.

Lemma or_else_absent (v : option string) (d : string) :
  absent v -> Py.or_else v d = d.
Proof. intros [->| ->]; reflexivity. Qed.

Lemma or_else_present (v : option string) (d : string) :
  ~ absent v -> v = Some (Py.or_else v d).
Proof.
  intros H. apply truthy_true_inv.
  destruct (Py.truthy v) eqn:E; [reflexivity|].
  now apply truthy_false_iff in E.
Qed.

(** C8, as the code has it. Every row of the historical view renders a
    tender entry of its region: an absent [validFrom] as ["Unknown"], an
    absent [validTo] as the empty string, and a date that is present as
    itself. *)
Theorem historical_row_renders_absent (now : nat -> string) (tick : nat)
    (currency_data : list (string * list Currency)) (row : Historical.row) :
  In row (generate_historical_currencies_csv iso3166_data iso4217_data
            current_date now tick currency_data) ->
  exists region_code currencies c,
    In (region_code, currencies) currency_data
    /\ In c currencies
    /\ Historical.country_code row = region_code
    /\ Historical.currency_code row = cur_iso4217 c
    /\ (absent (cur_from c) -> Historical.active_from row = "Unknown")
    /\ (absent (cur_to c) -> Historical.active_until row = "")
    /\ (~ absent (cur_from c) -> cur_from c = Some (Historical.active_from row))
    /\ (~ absent (cur_to c) -> cur_to c = Some (Historical.active_until row)).
Proof.
  intros Hin. apply generate_historical_currencies_csv_In in Hin.
  destruct (historical_rows_In _ _ _ _ Hin)
    as (region_code & currencies & c & k & Hi & _ & Hc & ->).
  apply get_all_currencies_In in Hc as [Hc _].
  exists region_code, currencies, c. cbn.
  repeat (split; [solve [auto using or_else_absent, or_else_present]|]).
  apply or_else_present.
Qed.

End ViewFacts.

Lemma historical_row_renders_absent_witness :
  exists region_code currencies c,
    In (region_code, currencies) Sample.currency_data
    /\ In c currencies
    /\ Historical.country_code Sample.xfo_row = region_code
    /\ Historical.currency_code Sample.xfo_row = cur_iso4217 c
    /\ (absent (cur_from c)
        -> Historical.active_from Sample.xfo_row = "Unknown")
    /\ (absent (cur_to c) -> Historical.active_until Sample.xfo_row = "")
    /\ (~ absent (cur_from c)
        -> cur_from c = Some (Historical.active_from Sample.xfo_row))
    /\ (~ absent (cur_to c)
        -> cur_to c = Some (Historical.active_until Sample.xfo_row)).
Proof.
  apply (historical_row_renders_absent Sample.iso3166_data
           Sample.iso4217_data Sample.today Sample.now 0
           Sample.currency_data Sample.xfo_row).
  vm_compute. right. left. reflexivity.
Defined.

(** C8, as the specification words it, fails: the entry [Sample.xfo] has
    no [validFrom], and its row in the historical view does not render it
    as the empty string. *)
Lemma absent_valid_from_not_empty :
  absent (cur_from Sample.xfo)
  /\ In Sample.xfo_row
       (generate_historical_currencies_csv Sample.iso3166_data
          Sample.iso4217_data Sample.today Sample.now 0 Sample.currency_data)
  /\ Historical.active_from Sample.xfo_row <> "".
Proof.
  split; [now left|]. split; [|discriminate].
  vm_compute. right. left. reflexivity.
Qed.

(** ** Regions without a country record *)

Section RegionFacts.

Variable iso3166_data : gmap string (gmap string string).
Variable iso4217_data : gmap string (gmap string string).
Variable current_date : string.

Lemma resolved_name_missing (region_code : string) :
  iso3166_data !! region_code = None ->
  resolved_name iso3166_data region_code = "Unknown".
Proof.
  intros H. unfold resolved_name, country_info_of. now rewrite H.
Qed.

Lemma is_valid_region_false (region_code : string) :
  iso3166_data !! region_code = None
  \/ resolved_name iso3166_data region_code = ""
  \/ resolved_name iso3166_data region_code = "Unknown" ->
  is_valid_region region_code (country_info_of iso3166_data region_code)
  = false.
Proof.
  intros H.
  assert (E : resolved_name iso3166_data region_code = ""
              \/ resolved_name iso3166_data region_code = "Unknown").
  { destruct H as [H|[H|H]]; auto using resolved_name_missing. }
  unfold is_valid_region. fold (resolved_name iso3166_data region_code).
  destruct E as [-> | ->]; reflexivity.
Qed.

Lemma current_json_lookup_invalid (region_code : string)
    (items : list (string * list Currency))
    (data : gmap string CurrentJson.entry) :
  is_valid_region region_code (country_info_of iso3166_data region_code)
  = false ->
  fold_left (current_json_step iso3166_data iso4217_data current_date)
    items data !! region_code
  = data !! region_code.
Proof.
  intros Hinv. revert data.
  induction items as [|[rc cs] rest IH]; intros data; [reflexivity|].
  cbn [fold_left]. rewrite IH. unfold current_json_step.
  destruct (is_valid_region rc _) eqn:Ev; cbn [negb]; [|reflexivity].
  destruct (determine_current_currency _ _); [|reflexivity].
  apply lookup_insert_ne. intros ->. congruence.
Qed.

(** Where an entry of the historical JSON view comes from. *)
Lemma historical_json_lookup (region_code : string)
    (items : list (string * list Currency))
    (data : gmap string HistoricalJson.entry) (e : HistoricalJson.entry) :
  fold_left (historical_json_step iso3166_data iso4217_data current_date)
    items data !! region_code
  = Some e ->
  data !! region_code = Some e
  \/ exists currencies,
       In (region_code, currencies) items
       /\ is_valid_region region_code
            (country_info_of iso3166_data region_code) = true
       /\ get_all_currencies currencies <> []
       /\ HistoricalJson.currencies e
          = List.map (historical_item iso4217_data current_date)
              (get_all_currencies currencies).
Proof.
  revert data.
  induction items as [|[rc cs] rest IH]; intros data; [now left|].
  cbn [fold_left]. intros H. apply IH in H.
  destruct H as [H | (currencies & Hin & Hrest)];
    [|right; exists currencies; split; [now right|exact Hrest]].
  unfold historical_json_step in H.
  destruct (is_valid_region rc _) eqn:Ev; cbn [negb] in H; [|now left].
  cbv zeta in H.
  destruct (get_all_currencies cs) as [|c l] eqn:Eall; [now left|].
  cbn [List.map] in H.
  destruct (decide (rc = region_code)) as [->|Hne].
  - rewrite lookup_insert_eq in H. injection H as <-.
    right. exists cs. split; [now left|]. split; [exact Ev|].
    rewrite Eall. split; [discriminate|reflexivity].
  - rewrite lookup_insert_ne in H by exact Hne. now left.
Qed.

Lemma historical_json_lookup_invalid (region_code : string)
    (currency_data : list (string * list Currency)) :
  is_valid_region region_code (country_info_of iso3166_data region_code)
  = false ->
  generate_historical_currencies_json iso3166_data iso4217_data current_date
    currency_data !! region_code = None.
Proof.
  intros Hinv. unfold generate_historical_currencies_json.
  destruct (fold_left _ _ _ !! region_code) as [e|] eqn:E; [|reflexivity].
  apply historical_json_lookup in E as [E | (cs & _ & Hv & _)].
  - now rewrite lookup_empty in E.
  - congruence.
Qed.

(** C5. A region without a country record, or whose resolved name is
    empty or ["Unknown"], has no row in the current and historical CSV
    views and no entry in the current and historical JSON views. *)
Theorem invalid_region_in_no_view (now : nat -> string) (tick : nat)
    (currency_data : list (string * list Currency)) (region_code : string) :
  iso3166_data !! region_code = None
  \/ resolved_name iso3166_data region_code = ""
  \/ resolved_name iso3166_data region_code = "Unknown" ->
  (forall row,
      In row (generate_current_currencies_csv iso3166_data iso4217_data
                current_date now tick currency_data) ->
      Current.country_code row <> region_code)
  /\ (forall row,
         In row (generate_historical_currencies_csv iso3166_data
                   iso4217_data current_date now tick currency_data) ->
         Historical.country_code row <> region_code)
  /\ generate_current_currencies_json iso3166_data iso4217_data current_date
       currency_data !! region_code = None
  /\ generate_historical_currencies_json iso3166_data iso4217_data
       current_date currency_data !! region_code = None.
Proof.
  intros H. apply is_valid_region_false in H.
  split; [|split; [|split]].
  - intros row Hin.
    destruct (current_rows_In _ _ _ _ _ _ _ Hin)
      as (rc & cs & c & k & _ & Hv & _ & ->).
    cbn. congruence.
  - intros row Hin. apply generate_historical_currencies_csv_In in Hin.
    destruct (historical_rows_In _ _ _ _ _ _ _ Hin)
      as (rc & cs & c & k & _ & Hv & _ & ->).
    cbn. congruence.
  - unfold generate_current_currencies_json.
    rewrite current_json_lookup_invalid by exact H. apply lookup_empty.
  - now apply historical_json_lookup_invalid.
Qed.

Lemma NoDup_fst_In {K V} (l : list (K * V)) (k : K) (v v' : V) :
  List.NoDup (List.map fst l) -> In (k, v) l -> In (k, v') l -> v = v'.
Proof.
  induction l as [|[k0 v0] l IH]; [intros _ []|].
  cbn [List.map fst]. intros Hnd. inversion_clear Hnd as [|? ? Hk Hl].
  intros [E|Hin] [E'|Hin'].
  - congruence.
  - injection E as -> ->. exfalso. apply Hk.
    change k with (fst (k, v')). now apply in_map.
  - injection E' as -> ->. exfalso. apply Hk.
    change k with (fst (k, v)). now apply in_map.
  - apply IH; assumption.
Qed.

(** C6. With the region codes of the history pairwise distinct, as the
    keys of a dict are, every region of the historical JSON view has rows
    in the historical CSV view, and the two views list the same currency
    codes for it. *)
Theorem historical_json_regions_in_csv (now : nat -> string) (tick : nat)
    (currency_data : list (string * list Currency)) (region_code : string)
    (e : HistoricalJson.entry) :
  List.NoDup (List.map fst currency_data) ->
  generate_historical_currencies_json iso3166_data iso4217_data current_date
    currency_data !! region_code = Some e ->
  (exists row,
      In row (generate_historical_currencies_csv iso3166_data iso4217_data
                current_date now tick currency_data)
      /\ Historical.country_code row = region_code)
  /\ (forall code,
         In code (json_currency_codes e)
         <-> In code
               (csv_currency_codes region_code
                  (generate_historical_currencies_csv iso3166_data
                     iso4217_data current_date now tick currency_data))).
Proof.
  intros Hnd He. unfold generate_historical_currencies_json in He.
  apply historical_json_lookup in He
    as [He | (currencies & Hin & Hv & Hne & Hcur)];
    [now rewrite lookup_empty in He|].
  split.
  - destruct (get_all_currencies currencies) as [|c l] eqn:Eall;
      [congruence|].
    destruct (historical_rows_complete iso3166_data iso4217_data
                current_date now tick currency_data region_code currencies c
                Hin Hv) as [k Hk]; [rewrite Eall; now left|].
    eexists. split; [apply generate_historical_currencies_csv_In, Hk|].
    reflexivity.
  - intros code. unfold json_currency_codes, csv_currency_codes.
    rewrite Hcur, List.map_map, !in_map_iff. split.
    + intros (c & <- & Hc).
      destruct (historical_rows_complete iso3166_data iso4217_data
                  current_date now tick currency_data region_code currencies
                  c Hin Hv Hc) as [k Hk].
      eexists. split; [|apply filter_In; split;
        [apply generate_historical_currencies_csv_In, Hk|]].
      * reflexivity.
      * cbn. apply String.eqb_refl.
    + intros (row & <- & Hrow). apply filter_In in Hrow as [Hrow Hrc].
      apply String.eqb_eq in Hrc.
      apply generate_historical_currencies_csv_In in Hrow.
      destruct (historical_rows_In _ _ _ _ _ _ _ Hrow)
        as (rc & cs & c & k & Hi & _ & Hc & ->).
      cbn in Hrc. subst rc.
      rewrite (NoDup_fst_In _ _ _ _ Hnd Hin Hi).
      exists c. split; [reflexivity|exact Hc].
Qed.

End RegionFacts.

Lemma invalid_region_in_no_view_witness :
  (forall row,
      In row (generate_current_currencies_csv Sample.iso3166_data
                Sample.iso4217_data Sample.today Sample.now 0
                Sample.currency_data) ->
      Current.country_code row <> "ZZ")
  /\ (forall row,
         In row (generate_historical_currencies_csv Sample.iso3166_data
                   Sample.iso4217_data Sample.today Sample.now 0
                   Sample.currency_data) ->
         Historical.country_code row <> "ZZ")
  /\ generate_current_currencies_json Sample.iso3166_data
       Sample.iso4217_data Sample.today Sample.currency_data !! "ZZ" = None
  /\ generate_historical_currencies_json Sample.iso3166_data
       Sample.iso4217_data Sample.today Sample.currency_data !! "ZZ" = None.
Proof.
  apply (invalid_region_in_no_view Sample.iso3166_data Sample.iso4217_data
           Sample.today Sample.now 0 Sample.currency_data "ZZ").
  left. vm_compute. reflexivity.
Defined.

Lemma historical_json_regions_in_csv_witness :
  (exists row,
      In row (generate_historical_currencies_csv Sample.iso3166_data
                Sample.iso4217_data Sample.today Sample.now 0
                Sample.currency_data)
      /\ Historical.country_code row = "FR")
  /\ (forall code,
         In code (json_currency_codes Sample.fr_entry)
         <-> In code
               (csv_currency_codes "FR"
                  (generate_historical_currencies_csv Sample.iso3166_data
                     Sample.iso4217_data Sample.today Sample.now 0
                     Sample.currency_data))).
Proof.
  apply (historical_json_regions_in_csv Sample.iso3166_data
           Sample.iso4217_data Sample.today Sample.now 0
           Sample.currency_data "FR" Sample.fr_entry).
  - repeat constructor; simpl; intuition discriminate.
  - vm_compute. reflexivity.
Defined.

(** ** The order of the historical view *)

Lemma trans3_swap (x y z : comparison) : trans3 x y z -> trans3 y x z.
Proof. unfold trans3. tauto. Qed.

Lemma string_compare_gt_lt (a b : string) :
  String.compare a b = Gt <-> String.compare b a = Lt.
Proof.
  rewrite (String.compare_antisym a b).
  destruct (String.compare b a); simpl; split; congruence.
Qed.

Lemma string_compare_trans3 (a b c : string) :
  trans3 (String.compare a b) (String.compare b c) (String.compare a c).
Proof.
  unfold trans3. repeat split.
  - intros E. apply String.compare_eq_iff in E. now subst.
  - intros E. apply String.compare_eq_iff in E. now subst.
  - apply string_compare_lt_trans.
  - rewrite !string_compare_gt_lt. intros H1 H2.
    eapply string_compare_lt_trans; eassumption.
Qed.

Lemma lex_trans3 (x12 x23 x13 y12 y23 y13 : comparison) :
  trans3 x12 x23 x13 -> trans3 y12 y23 y13 ->
  trans3 (match x12 with Eq => y12 | Lt => Lt | Gt => Gt end)
         (match x23 with Eq => y23 | Lt => Lt | Gt => Gt end)
         (match x13 with Eq => y13 | Lt => Lt | Gt => Gt end).
Proof.
  unfold trans3. intros (X1 & X2 & X3 & X4) Hy.
  destruct x12, x23;
    try (rewrite (X1 eq_refl)); try (rewrite (X2 eq_refl));
    try (rewrite (X3 eq_refl eq_refl)); try (rewrite (X4 eq_refl eq_refl));
    try exact Hy; repeat split; try congruence;
    destruct y12; congruence || (destruct y23; congruence).
Qed.

Lemma trans3_le (x12 x23 x13 : comparison) :
  trans3 x12 x23 x13 ->
  match x12 with Gt => false | _ => true end = true ->
  match x23 with Gt => false | _ => true end = true ->
  match x13 with Gt => false | _ => true end = true.
Proof.
  unfold trans3. intros (X1 & X2 & X3 & X4).
  destruct x12, x23; try discriminate; intros _ _;
    try (rewrite (X1 eq_refl)); try (rewrite (X2 eq_refl));
    try (rewrite (X3 eq_refl eq_refl)); reflexivity.
Qed.

Lemma sort_compare_trans3 (a b c : Historical.row) :
  trans3 (Historical.sort_compare a b) (Historical.sort_compare b c)
    (Historical.sort_compare a c).
Proof.
  unfold Historical.sort_compare.
  apply (lex_trans3 _ _ _ _ _ _
           (string_compare_trans3 (Historical.country_code a)
              (Historical.country_code b) (Historical.country_code c))).
  apply (lex_trans3 _ _ _ _ _ _
           (trans3_swap _ _ _
              (string_compare_trans3 (Historical.status c)
                 (Historical.status b) (Historical.status a)))).
  apply string_compare_trans3.
Qed.

Lemma sort_le_trans (a b c : Historical.row) :
  Historical.sort_le a b = true -> Historical.sort_le b c = true ->
  Historical.sort_le a c = true.
Proof. apply trans3_le, sort_compare_trans3. Qed.

Lemma sort_compare_antisym (a b : Historical.row) :
  Historical.sort_compare b a = CompOpp (Historical.sort_compare a b).
Proof.
  unfold Historical.sort_compare.
  rewrite (String.compare_antisym (Historical.country_code b)).
  rewrite (String.compare_antisym (Historical.status a)).
  rewrite (String.compare_antisym (Historical.active_from b)).
  destruct (String.compare (Historical.country_code a) _); simpl;
    try reflexivity.
  destruct (String.compare (Historical.status b) _); simpl; reflexivity.
Qed.

Lemma sort_le_total (a b : Historical.row) :
  Historical.sort_le a b = false -> Historical.sort_le b a = true.
Proof.
  unfold Historical.sort_le. rewrite (sort_compare_antisym a b).
  now destruct (Historical.sort_compare a b).
Qed.

(** What [sort_values] leaves: the rows are in non-decreasing order of
    [sort_compare]. *)
Lemma generate_historical_currencies_csv_sorted
    (iso3166_data iso4217_data : gmap string (gmap string string))
    (current_date : string) (now : nat -> string) (tick : nat)
    (currency_data : list (string * list Currency)) :
  StronglySorted (fun a b => Historical.sort_le a b = true)
    (generate_historical_currencies_csv iso3166_data iso4217_data
       current_date now tick currency_data).
Proof.
  rewrite generate_historical_currencies_csv_sorted_rows.
  apply stable_sort_sorted; [exact sort_le_total|exact sort_le_trans].
Qed.

(** In that order no Active row of a region comes before a Historical row
    of the same region: the descending status column puts ["Historical"]
    first. *)
Lemma sort_le_active_historical (a b : Historical.row) :
  Historical.sort_le a b = true ->
  Historical.country_code a = Historical.country_code b ->
  Historical.status a = "Active" -> Historical.status b <> "Historical".
Proof.
  unfold Historical.sort_le, Historical.sort_compare.
  intros H Hc Ha Hb. rewrite Hc, string_compare_refl, Ha, Hb in H.
  discriminate H.
Qed.

(** C1 at a region with one past and one current currency: the view lists
    the Historical row before the Active row. *)
Theorem historical_view_lists_historical_first :
  List.map (fun r => (Historical.country_code r, Historical.currency_code r,
                      Historical.status r))
    (generate_historical_currencies_csv Sample.iso3166_data
       Sample.iso4217_data Sample.today Sample.now 0
       [("FR", [Sample.frf; Sample.eur])])
  = [("FR", Some "FRF", "Historical"); ("FR", Some "EUR", "Active")].
Proof. vm_compute. reflexivity. Qed.

(** ** Reference loader *)

Lemma getattr_missing (obj : gmap string string) (attr : string) :
  obj !! attr = None -> getattr obj attr = Raise (Exception "AttributeError").
Proof. intros H. unfold getattr. now rewrite H. Qed.

Lemma getattr_cases (obj : gmap string string) (attr : string) :
  (exists v, obj !! attr = Some v /\ getattr obj attr = Return v)
  \/ (obj !! attr = None
      /\ getattr obj attr = Raise (Exception "AttributeError")).
Proof.
  unfold getattr. destruct (obj !! attr) as [v|]; [left|right]; eauto.
Qed.

Ltac read_attr obj attr :=
  destruct (getattr_cases obj attr) as [(? & ? & ->) | [? ->]];
  cbn [mbind result_bind]; [|eauto].

(** A failed load of the country table raises an [Exception] inside the
    [try]. *)
Lemma iso3166_loop_failure (countries_db : iterator (gmap string string))
    (countries : gmap string (gmap string string)) :
  load_failure ["alpha_2"; "alpha_3"; "name"] countries_db ->
  exists name, iso3166_loop countries_db countries = Raise (Exception name).
Proof.
  intros Hf. revert countries.
  induction Hf as [name | obj rest attr Hin Hnone | obj rest Hf IH];
    intros countries; cbn [iso3166_loop].
  - eauto.
  - read_attr obj "alpha_2". read_attr obj "alpha_3". read_attr obj "name".
    exfalso. cbn in Hin. destruct Hin as [<-|[<-|[<-|[]]]]; congruence.
  - read_attr obj "alpha_2". read_attr obj "alpha_3". read_attr obj "name".
    apply IH.
Qed.

Lemma iso4217_loop_failure (currencies_db : iterator (gmap string string))
    (currencies : gmap string (gmap string string)) :
  load_failure ["alpha_3"; "name"; "numeric"] currencies_db ->
  exists name, iso4217_loop currencies_db currencies = Raise (Exception name).
Proof.
  intros Hf. revert currencies.
  induction Hf as [name | obj rest attr Hin Hnone | obj rest Hf IH];
    intros currencies; cbn [iso4217_loop].
  - eauto.
  - read_attr obj "alpha_3". read_attr obj "name". read_attr obj "numeric".
    exfalso. cbn in Hin. destruct Hin as [<-|[<-|[<-|[]]]]; congruence.
  - read_attr obj "alpha_3". read_attr obj "name". read_attr obj "numeric".
    apply IH.
Qed.

Lemma try_except_Exception_never_raises {A} (body : result A) (handler : A)
    (name : string) :
  try_except_Exception body handler <> Raise (Exception name).
Proof. destruct body as [a|[n|n]]; discriminate. Qed.

(** C9. When loading a reference table fails, the loader returns the
    empty mapping; no loader ever raises an [Exception] to the run. *)
Theorem reference_loader_degrades_to_empty
    (countries_db currencies_db : iterator (gmap string string)) :
  load_failure ["alpha_2"; "alpha_3"; "name"] countries_db ->
  load_failure ["alpha_3"; "name"; "numeric"] currencies_db ->
  fetch_iso3166_data countries_db = Return ∅
  /\ fetch_iso4217_data currencies_db = Return ∅
  /\ (forall (db : iterator (gmap string string)) (name : string),
         fetch_iso3166_data db <> Raise (Exception name)
         /\ fetch_iso4217_data db <> Raise (Exception name)).
Proof.
  intros H1 H2.
  destruct (iso3166_loop_failure _ ∅ H1) as [n1 E1].
  destruct (iso4217_loop_failure _ ∅ H2) as [n2 E2].
  unfold fetch_iso3166_data, fetch_iso4217_data. rewrite E1, E2.
  repeat split; apply try_except_Exception_never_raises.
Qed.

Lemma reference_loader_degrades_to_empty_witness :
  fetch_iso3166_data broken_countries = Return ∅
  /\ fetch_iso4217_data broken_currencies = Return ∅
  /\ (forall (db : iterator (gmap string string)) (name : string),
         fetch_iso3166_data db <> Raise (Exception name)
         /\ fetch_iso4217_data db <> Raise (Exception name)).
Proof.
  apply (reference_loader_degrades_to_empty broken_countries
           broken_currencies).
  - apply fails_later. apply (malformed _ _ _ "alpha_3").
    + simpl. auto.
    + vm_compute. reflexivity.
  - apply fails_later. apply unavailable.
Defined.

(** * Further properties *)

(** ** Insertion-ordered dicts *)



Lemma dict_set_keys {V} (k k0 : string) (v : V) (d : list (string * V)) :
  In k0 (List.map fst (Dict.set k v d)) <-> k0 = k \/ In k0 (List.map fst d).
Proof.
  induction d as [|[k' v'] d IH]; cbn [Dict.set List.map fst In].
  - intuition.
  - destruct (String.eqb k' k) eqn:E; cbn [List.map fst In].
    + apply String.eqb_eq in E. subst k'. intuition.
    + rewrite IH. intuition.
Qed.

Lemma dict_set_NoDup {V} (k : string) (v : V) (d : list (string * V)) :
  List.NoDup (List.map fst d) -> List.NoDup (List.map fst (Dict.set k v d)).
Proof.
  induction d as [|[k' v'] d IH]; cbn [Dict.set List.map fst]; intros Hnd.
  - constructor; [intros []|constructor].
  - inversion_clear Hnd as [|? ? Hk Hd].
    destruct (String.eqb k' k) eqn:E; cbn [List.map fst].
    + now constructor.
    + constructor; [|auto]. rewrite dict_set_keys. intros [->|Hin]; [|auto].
      now rewrite String.eqb_refl in E.
Qed.

Lemma dict_get_In {V} (k : string) (v : V) (d : list (string * V)) :
  List.NoDup (List.map fst d) -> Dict.get k d = Some v <-> In (k, v) d.
Proof.
  induction d as [|[k' v'] d IH]; cbn [Dict.get List.map fst In].
  - intros _. split; [discriminate|intros []].
  - intros Hnd. inversion_clear Hnd as [|? ? Hk Hd].
    destruct (String.eqb_spec k' k) as [->|Hne].
    + split; [intros [= ->]; now left|].
      intros [[= ->]|Hin]; [reflexivity|].
      exfalso. apply Hk. change k with (fst (k, v)). now apply in_map.
    + rewrite (IH Hd). split; [now right|].
      intros [[= E _]|Hin]; [contradiction|exact Hin].
Qed.


(** ** Region-currency parser *)

Lemma parse_region_skip (currency_data : list (string * list Currency))
    (region_elem : Element) :
  Py.truthy (attrib region_elem !! "iso3166") = false ->
  parse_region currency_data region_elem = currency_data.
Proof. intros H. unfold parse_region. now rewrite H. Qed.

Lemma parse_region_set (currency_data : list (string * list Currency))
    (region_elem : Element) :
  Py.truthy (attrib region_elem !! "iso3166") = true ->
  exists k, attrib region_elem !! "iso3166" = Some k /\ k <> ""
            /\ parse_region currency_data region_elem
               = Dict.set k (region_currencies region_elem) currency_data.
Proof.
  intros H. unfold parse_region. rewrite H. cbn [negb].
  destruct (truthy_true_inv _ "" H) as [E Hne].
  exists (Py.or_else (attrib region_elem !! "iso3166") "").
  split; [exact E|]. split; [exact Hne|reflexivity].
Qed.

Lemma parse_regions_keys (regions : list Element)
    (currency_data : list (string * list Currency)) :
  List.NoDup (List.map fst currency_data) ->
  List.Forall (fun k => k <> "") (List.map fst currency_data) ->
  List.NoDup (List.map fst (fold_left parse_region regions currency_data))
  /\ List.Forall (fun k => k <> "")
       (List.map fst (fold_left parse_region regions currency_data)).
Proof.
  revert currency_data.
  induction regions as [|r regions IH]; intros d Hnd Hne; [now split|].
  cbn [fold_left].
  destruct (Py.truthy (attrib r !! "iso3166")) eqn:E.
  - destruct (parse_region_set d r E) as (k & _ & Hk & ->).
    apply IH; [now apply dict_set_NoDup|].
    rewrite List.Forall_forall in *. intros k0 Hin.
    apply dict_set_keys in Hin as [->|Hin]; auto.
  - rewrite (parse_region_skip d r E). now apply IH.
Qed.


(** X1. The region codes of a parsed history are pairwise distinct and none
    is empty. *)
Theorem parse_currency_tree_keys (root : Element)
    (currency_data : list (string * list Currency)) :
  parse_currency_tree root = Return currency_data ->
  List.NoDup (List.map fst currency_data)
  /\ List.Forall (fun k => k <> "") (List.map fst currency_data).
Proof.
  unfold parse_currency_tree.
  destruct (find_descendant "currencyData" root) as [e|]; [|discriminate].
  intros [= <-]. apply parse_regions_keys; constructor.
Qed.

Lemma parse_currency_tree_keys_witness :
  List.NoDup (List.map fst sample_parsed)
  /\ List.Forall (fun k => k <> "") (List.map fst sample_parsed).
Proof.
  apply (parse_currency_tree_keys sample_document). reflexivity.
Defined.



(** X3. The parser fails in two ways only: [fromstring] raises, and the
    exception goes on to the caller, or the document has no
    [currencyData] element below its root, and [ValueError] is raised. *)
Theorem parse_currency_xml_errors (fromstring : string -> result Element)
    (xml_content : string) (e : exn) :
  parse_currency_xml fromstring xml_content = Raise e
  <-> fromstring xml_content = Raise e
      \/ exists root,
           fromstring xml_content = Return root
           /\ e = Exception "ValueError"
           /\ List.Forall (fun x => tag x <> "currencyData")
                (descendants root).
Proof.
  unfold parse_currency_xml.
  destruct (fromstring xml_content) as [root|e0]; cbn [mbind result_bind].
  - unfold parse_currency_tree, find_descendant. split.
    + destruct (List.find _ _) eqn:E; [discriminate|].
      intros [= <-]. right. exists root. split; [reflexivity|].
      split; [reflexivity|]. rewrite List.Forall_forall. intros x Hx.
      apply (find_none _ _ E) in Hx. now apply String.eqb_neq.
    + intros [H|(root' & [= <-] & -> & Hall)]; [discriminate|].
      destruct (List.find _ _) as [x|] eqn:E; [|reflexivity].
      apply find_some in E as [Hx Ht]. rewrite List.Forall_forall in Hall.
      apply String.eqb_eq in Ht. now apply Hall in Hx.
  - split; [intros [= <-]; now left|].
    intros [[= ->]|(root & H & _)]; [reflexivity|discriminate].
Qed.

(** ** Reference tables *)

Ltac read_attr_ok obj attr :=
  destruct (getattr_cases obj attr) as [(? & ? & ->) | [? ->]];
  cbn [mbind result_bind]; [|discriminate].

Lemma iso3166_loop_records (countries_db : iterator (gmap string string))
    (acc table : gmap string (gmap string string)) :
  iso3166_loop countries_db acc = Return table ->
  map_Forall country_record acc -> map_Forall country_record table.
Proof.
  revert acc. induction countries_db as [|country rest IH|e]; intros acc;
    cbn [iso3166_loop]; [now intros [= <-]| |discriminate].
  read_attr_ok country "alpha_2". read_attr_ok country "alpha_3".
  read_attr_ok country "name". intros Hloop Hacc.
  apply IH in Hloop; [exact Hloop|].
  apply map_Forall_insert_2; [|exact Hacc].
  unfold country_record. repeat split; try eexists; reflexivity.
Qed.

Lemma iso4217_loop_records (currencies_db : iterator (gmap string string))
    (acc table : gmap string (gmap string string)) :
  iso4217_loop currencies_db acc = Return table ->
  map_Forall currency_record acc -> map_Forall currency_record table.
Proof.
  revert acc. induction currencies_db as [|currency rest IH|e]; intros acc;
    cbn [iso4217_loop]; [now intros [= <-]| |discriminate].
  read_attr_ok currency "alpha_3". read_attr_ok currency "name".
  read_attr_ok currency "numeric". intros Hloop Hacc.
  apply IH in Hloop; [exact Hloop|].
  apply map_Forall_insert_2; [|exact Hacc].
  unfold currency_record. repeat split; try eexists; reflexivity.
Qed.

Lemma try_except_Exception_inv {A} (body : result A) (handler a : A) :
  try_except_Exception body handler = Return a ->
  body = Return a \/ (a = handler /\ exists name, body = Raise (Exception name)).
Proof.
  destruct body as [a'|[n|n]]; cbn; intros [= <-]; eauto.
Qed.

(** X4. Whatever the database, every record of a table a loader returns is
    complete: a country record has its two codes and its two names under
    its two-letter code, a currency record its code, name and number. *)
Theorem fetched_records_complete
    (countries_db currencies_db : iterator (gmap string string))
    (iso3166_data iso4217_data : gmap string (gmap string string)) :
  fetch_iso3166_data countries_db = Return iso3166_data ->
  fetch_iso4217_data currencies_db = Return iso4217_data ->
  map_Forall country_record iso3166_data
  /\ map_Forall currency_record iso4217_data.
Proof.
  intros H1 H2.
  apply try_except_Exception_inv in H1 as [H1|[-> _]];
    apply try_except_Exception_inv in H2 as [H2|[-> _]];
    split;
    try apply map_Forall_empty;
    try (eapply iso3166_loop_records; [eassumption|apply map_Forall_empty]);
    try (eapply iso4217_loop_records; [eassumption|apply map_Forall_empty]).
Qed.

Lemma fetched_records_complete_witness :
  map_Forall country_record good_country_table
  /\ map_Forall currency_record (∅ : gmap string (gmap string string)).
Proof.
  apply (fetched_records_complete good_countries broken_currencies).
  - reflexivity.
  - reflexivity.
Defined.

Lemma find_snoc {A} (p : A -> bool) (l : list A) (x : A) :
  List.find p (l ++ [x])
  = match List.find p l with
    | Some y => Some y
    | None => if p x then Some x else None
    end.
Proof.
  induction l as [|y l IH]; cbn [app List.find]; [reflexivity|].
  destruct (p y); [reflexivity|exact IH].
Qed.

Lemma has_attrs_getattr (needed : list string) (obj : gmap string string)
    (attr : string) :
  has_attrs needed obj -> In attr needed ->
  getattr obj attr = Return (default "" (obj !! attr)).
Proof.
  unfold has_attrs. rewrite List.Forall_forall. intros H Hin.
  destruct (H attr Hin) as [v Hv]. unfold getattr. now rewrite Hv.
Qed.

Lemma iso3166_loop_table (countries_db : iterator (gmap string string))
    (acc : gmap string (gmap string string)) :
  exhausted countries_db = true ->
  List.Forall (has_attrs ["alpha_2"; "alpha_3"; "name"])
    (yielded countries_db) ->
  exists table,
    iso3166_loop countries_db acc = Return table
    /\ forall key,
         table !! key
         = match List.find
                   (fun obj => bool_decide (obj !! "alpha_2" = Some key))
                   (rev (yielded countries_db)) with
           | Some obj => Some (country_of obj)
           | None => acc !! key
           end.
Proof.
  revert acc. induction countries_db as [|country rest IH|e]; intros acc;
    cbn [exhausted yielded iso3166_loop]; [| |discriminate].
  - intros _ _. exists acc. split; reflexivity.
  - intros Hex Hall. inversion_clear Hall as [|? ? Hc Hrest].
    rewrite !(has_attrs_getattr _ _ _ Hc) by (cbn; auto 6).
    cbn [mbind result_bind].
    destruct (IH (<[default "" (country !! "alpha_2") := country_of country]>
                    acc) Hex Hrest) as (table & Hloop & Htable).
    exists table. split; [exact Hloop|]. intros key.
    rewrite Htable. cbn [rev]. rewrite find_snoc.
    destruct (List.find _ (rev (yielded rest))); [reflexivity|].
    unfold has_attrs in Hc. rewrite List.Forall_forall in Hc.
    destruct (Hc "alpha_2") as [k Hk]; [now left|]. rewrite Hk. cbn [default].
    destruct (decide (k = key)) as [->|Hne].
    + rewrite bool_decide_eq_true_2 by reflexivity. apply lookup_insert_eq.
    + rewrite bool_decide_eq_false_2 by congruence.
      now apply lookup_insert_ne.
Qed.

Lemma iso4217_loop_table (currencies_db : iterator (gmap string string))
    (acc : gmap string (gmap string string)) :
  exhausted currencies_db = true ->
  List.Forall (has_attrs ["alpha_3"; "name"; "numeric"])
    (yielded currencies_db) ->
  exists table,
    iso4217_loop currencies_db acc = Return table
    /\ forall key,
         table !! key
         = match List.find
                   (fun obj => bool_decide (obj !! "alpha_3" = Some key))
                   (rev (yielded currencies_db)) with
           | Some obj => Some (currency_of obj)
           | None => acc !! key
           end.
Proof.
  revert acc. induction currencies_db as [|currency rest IH|e]; intros acc;
    cbn [exhausted yielded iso4217_loop]; [| |discriminate].
  - intros _ _. exists acc. split; reflexivity.
  - intros Hex Hall. inversion_clear Hall as [|? ? Hc Hrest].
    rewrite !(has_attrs_getattr _ _ _ Hc) by (cbn; auto 6).
    cbn [mbind result_bind].
    destruct (IH (<[default "" (currency !! "alpha_3") :=
                      currency_of currency]> acc) Hex Hrest)
      as (table & Hloop & Htable).
    exists table. split; [exact Hloop|]. intros key.
    rewrite Htable. cbn [rev]. rewrite find_snoc.
    destruct (List.find _ (rev (yielded rest))); [reflexivity|].
    unfold has_attrs in Hc. rewrite List.Forall_forall in Hc.
    destruct (Hc "alpha_3") as [k Hk]; [now left|]. rewrite Hk. cbn [default].
    destruct (decide (k = key)) as [->|Hne].
    + rewrite bool_decide_eq_true_2 by reflexivity. apply lookup_insert_eq.
    + rewrite bool_decide_eq_false_2 by congruence.
      now apply lookup_insert_ne.
Qed.

(** X5. A database that is read to its end and whose objects have the
    attributes the loader reads gives the table of its objects: under each
    two-letter code the record of the last object with that code, whose
    official name is the object's, or its name when it has none. *)
Theorem fetch_iso3166_data_table
    (countries_db : iterator (gmap string string)) :
  exhausted countries_db = true ->
  List.Forall (has_attrs ["alpha_2"; "alpha_3"; "name"])
    (yielded countries_db) ->
  exists table,
    fetch_iso3166_data countries_db = Return table
    /\ forall key,
         table !! key
         = option_map country_of
             (List.find
                (fun obj => bool_decide (obj !! "alpha_2" = Some key))
                (rev (yielded countries_db))).
Proof.
  intros Hex Hall.
  destruct (iso3166_loop_table countries_db ∅ Hex Hall)
    as (table & Hloop & Htable).
  exists table. unfold fetch_iso3166_data. rewrite Hloop.
  split; [reflexivity|]. intros key. rewrite Htable.
  destruct (List.find _ _); [reflexivity|apply lookup_empty].
Qed.

Lemma fetch_iso3166_data_table_witness :
  exists table,
    fetch_iso3166_data good_countries = Return table
    /\ forall key,
         table !! key
         = option_map country_of
             (List.find
                (fun obj => bool_decide (obj !! "alpha_2" = Some key))
                (rev (yielded good_countries))).
Proof.
  apply (fetch_iso3166_data_table good_countries); [reflexivity|].
  repeat constructor; eexists; reflexivity.
Defined.

(** X6. The same for the currency table, under the three-letter code. *)
Theorem fetch_iso4217_data_table
    (currencies_db : iterator (gmap string string)) :
  exhausted currencies_db = true ->
  List.Forall (has_attrs ["alpha_3"; "name"; "numeric"])
    (yielded currencies_db) ->
  exists table,
    fetch_iso4217_data currencies_db = Return table
    /\ forall key,
         table !! key
         = option_map currency_of
             (List.find
                (fun obj => bool_decide (obj !! "alpha_3" = Some key))
                (rev (yielded currencies_db))).
Proof.
  intros Hex Hall.
  destruct (iso4217_loop_table currencies_db ∅ Hex Hall)
    as (table & Hloop & Htable).
  exists table. unfold fetch_iso4217_data. rewrite Hloop.
  split; [reflexivity|]. intros key. rewrite Htable.
  destruct (List.find _ _); [reflexivity|apply lookup_empty].
Qed.

Lemma fetch_iso4217_data_table_witness :
  exists table,
    fetch_iso4217_data good_currencies = Return table
    /\ forall key,
         table !! key
         = option_map currency_of
             (List.find
                (fun obj => bool_decide (obj !! "alpha_3" = Some key))
                (rev (yielded good_currencies))).
Proof.
  apply (fetch_iso4217_data_table good_currencies); [reflexivity|].
  repeat constructor; eexists; reflexivity.
Defined.

Lemma fetch_iso3166_data_records
    (countries_db : iterator (gmap string string))
    (iso3166_data : gmap string (gmap string string)) :
  fetch_iso3166_data countries_db = Return iso3166_data ->
  map_Forall country_record iso3166_data.
Proof.
  intros H. apply try_except_Exception_inv in H as [H|[-> _]].
  - eapply iso3166_loop_records; [eassumption|apply map_Forall_empty].
  - apply map_Forall_empty.
Qed.

Lemma fetch_iso4217_data_records
    (currencies_db : iterator (gmap string string))
    (iso4217_data : gmap string (gmap string string)) :
  fetch_iso4217_data currencies_db = Return iso4217_data ->
  map_Forall currency_record iso4217_data.
Proof.
  intros H. apply try_except_Exception_inv in H as [H|[-> _]].
  - eapply iso4217_loop_records; [eassumption|apply map_Forall_empty].
  - apply map_Forall_empty.
Qed.

Lemma names_of_named (table : gmap string (gmap string string)) :
  map_Forall (fun _ data => is_Some (data !! "name")) table ->
  names_of table
  = Return (omap (fun data : gmap string string => data !! "name") table).
Proof. intros H. unfold names_of. now rewrite decide_True. Qed.

Lemma omap_name_is_Some (table : gmap string (gmap string string))
    (key : string) :
  map_Forall (fun _ data => is_Some (data !! "name")) table ->
  is_Some (omap (fun data : gmap string string => data !! "name") table
             !! key)
  <-> is_Some (table !! key).
Proof.
  intros H. rewrite lookup_omap.
  destruct (table !! key) as [data|] eqn:E; cbn.
  - split; [eauto|]. intros _. exact (H key data E).
  - split; intros [? ?]; discriminate.
Qed.

(** X7. On tables the loaders returned, [generate_iso_mappings] does not
    raise: it maps every code of each table to a name, and a country code
    to its three-letter code, which is never empty. *)
Theorem generate_iso_mappings_of_fetched
    (countries_db currencies_db : iterator (gmap string string))
    (iso3166_data iso4217_data : gmap string (gmap string string)) :
  fetch_iso3166_data countries_db = Return iso3166_data ->
  fetch_iso4217_data currencies_db = Return iso4217_data ->
  exists mappings,
    generate_iso_mappings iso3166_data iso4217_data = Return mappings
    /\ (forall key, is_Some (Mappings.countries mappings !! key)
                    <-> is_Some (iso3166_data !! key))
    /\ (forall key, is_Some (Mappings.currencies mappings !! key)
                    <-> is_Some (iso4217_data !! key))
    /\ (forall key code,
           Mappings.alpha2_to_alpha3 mappings !! key = Some code ->
           code <> ""
           /\ exists data, iso3166_data !! key = Some data
                           /\ data !! "alpha_3" = Some code).
Proof.
  intros H1 H2.
  apply fetch_iso3166_data_records in H1.
  apply fetch_iso4217_data_records in H2.
  assert (N1 : map_Forall (fun _ data => is_Some (data !! "name"))
                 iso3166_data).
  { intros k data Hk. apply (H1 k data Hk). }
  assert (N2 : map_Forall (fun _ data => is_Some (data !! "name"))
                 iso4217_data).
  { intros k data Hk. apply (H2 k data Hk). }
  unfold generate_iso_mappings.
  rewrite (names_of_named _ N1), (names_of_named _ N2).
  cbn [mbind result_bind]. eexists. split; [reflexivity|]. cbn.
  split; [intros key; now apply omap_name_is_Some|].
  split; [intros key; now apply omap_name_is_Some|].
  intros key code. rewrite lookup_omap.
  destruct (iso3166_data !! key) as [data|]; cbn; [|discriminate].
  unfold alpha_3_of. destruct (Py.truthy (data !! "alpha_3")) eqn:E;
    [|discriminate].
  intros Hc. rewrite Hc in E. cbn in E.
  apply negb_true_iff, String.eqb_neq in E. split; [exact E|eauto].
Qed.

Lemma generate_iso_mappings_of_fetched_witness :
  exists mappings,
    generate_iso_mappings good_country_table good_currency_table
    = Return mappings
    /\ (forall key, is_Some (Mappings.countries mappings !! key)
                    <-> is_Some (good_country_table !! key))
    /\ (forall key, is_Some (Mappings.currencies mappings !! key)
                    <-> is_Some (good_currency_table !! key))
    /\ (forall key code,
           Mappings.alpha2_to_alpha3 mappings !! key = Some code ->
           code <> ""
           /\ exists data, good_country_table !! key = Some data
                           /\ data !! "alpha_3" = Some code).
Proof.
  apply (generate_iso_mappings_of_fetched good_countries good_currencies);
    reflexivity.
Defined.

(** ** Resolver, further *)

Lemma status_active_iff (current_date : string) (c : Currency) :
  status current_date c = "Active" <-> still_valid current_date c.
Proof.
  unfold status, still_valid.
  destruct (Py.truthy (cur_to c)) eqn:E; cbn [negb].
  - destruct (truthy_true_inv _ "" E) as [Hto _]. unfold Py.ge.
    destruct (String.leb current_date (Py.or_else (cur_to c) "")) eqn:Hle.
    + split; [|reflexivity]. intros _. right. eauto.
    + split; [discriminate|].
      intros [Ha|(t & Ht & Hle')].
      * apply truthy_false_iff in Ha. congruence.
      * rewrite Ht in Hto, Hle. cbn in Hto, Hle. injection Hto as Hto.
        rewrite <- Hto in Hle. congruence.
  - apply truthy_false_iff in E. tauto.
Qed.

Lemma status_cases (current_date : string) (c : Currency) :
  status current_date c = "Active" \/ status current_date c = "Historical".
Proof.
  unfold status. destruct (negb _); [now left|].
  destruct (Py.ge _ _); [now left|now right].
Qed.

Lemma determine_Some_qualifies (current_date : string)
    (currencies : list Currency) (c : Currency) :
  determine_current_currency current_date currencies = Some c ->
  In c currencies /\ qualifies current_date c.
Proof.
  intros H. pose proof (determine_split current_date currencies) as F.
  rewrite H in F. destruct F as (before & after & -> & _ & Hq).
  split; [|exact Hq]. apply in_or_app. right. now left.
Qed.

(** X8. The entry [determine_current_currency] returns is one of the list,
    and one [get_all_currencies] keeps, with status Active. *)
Theorem current_currency_is_listed (current_date : string)
    (currencies : list Currency) (c : Currency) :
  determine_current_currency current_date currencies = Some c ->
  In c currencies
  /\ In c (get_all_currencies currencies)
  /\ status current_date c = "Active".
Proof.
  intros H. apply determine_Some_qualifies in H as [Hin [Ht Hv]].
  split; [exact Hin|]. split.
  - apply get_all_currencies_In. now split.
  - now apply status_active_iff.
Qed.

Lemma current_currency_is_listed_witness :
  In Sample.eur [Sample.xxx; Sample.frf; Sample.eur]
  /\ In Sample.eur (get_all_currencies [Sample.xxx; Sample.frf; Sample.eur])
  /\ status Sample.today Sample.eur = "Active".
Proof.
  apply (current_currency_is_listed Sample.today
           [Sample.xxx; Sample.frf; Sample.eur] Sample.eur).
  reflexivity.
Defined.

(** X9. A region has a current currency exactly when one of the entries
    [get_all_currencies] keeps has status Active. *)
Theorem current_currency_iff_active (current_date : string)
    (currencies : list Currency) :
  determine_current_currency current_date currencies <> None
  <-> exists c, In c (get_all_currencies currencies)
                /\ status current_date c = "Active".
Proof.
  split.
  - destruct (determine_current_currency current_date currencies) as [c|]
      eqn:E; [intros _|congruence].
    apply determine_Some_qualifies in E as [Hin [Ht Hv]].
    exists c. split; [apply get_all_currencies_In; now split|].
    now apply status_active_iff.
  - intros (c & Hin & Hs) Hnone.
    apply get_all_currencies_In in Hin as [Hin Ht].
    apply status_active_iff in Hs.
    pose proof (determine_split current_date currencies) as F.
    rewrite Hnone in F. rewrite List.Forall_forall in F.
    apply (F c Hin). now split.
Qed.

Lemma insert_below {A} (le : A -> A -> bool) (x : A) (l : list A) :
  List.Forall (fun y => le x y = true) l -> Py.insert le x l = x :: l.
Proof.
  destruct l as [|y l]; [reflexivity|]. cbn [Py.insert].
  intros H. inversion_clear H as [|? ? Hy _]. now rewrite Hy.
Qed.

(** Sorting a list that is in order leaves it as it is. *)
Lemma stable_sort_sorted_id {A} (le : A -> A -> bool) (l : list A) :
  StronglySorted (fun a b => le a b = true) l -> Py.stable_sort le l = l.
Proof.
  induction 1 as [|x l Hs IH Hx]; [reflexivity|].
  cbn [Py.stable_sort]. rewrite IH. now apply insert_below.
Qed.

Lemma filter_all {A} (p : A -> bool) (l : list A) :
  (forall x, In x l -> p x = true) -> List.filter p l = l.
Proof.
  induction l as [|x l IH]; [reflexivity|]. intros H. cbn [List.filter].
  rewrite (H x) by now left. f_equal. apply IH. intros y Hy. apply H.
  now right.
Qed.

(** X10. [get_all_currencies] is idempotent: its output is a list it returns
    unchanged. *)
Theorem get_all_currencies_idempotent (currencies : list Currency) :
  get_all_currencies (get_all_currencies currencies)
  = get_all_currencies currencies.
Proof.
  unfold get_all_currencies at 1. rewrite filter_all.
  - apply stable_sort_sorted_id, get_all_currencies_sorted_keys.
  - intros c Hc. apply get_all_currencies_In in Hc as [_ Ht].
    now apply is_tender_iff.
Qed.

(** X11. [get_all_currencies] is a stable sort: the tender entries with the
    same sort key as [z] come out in the order they have in the input. *)
Theorem get_all_currencies_keeps_ties (currencies : list Currency)
    (z : Currency) :
  List.filter (fun c => String.eqb (from_key c) (from_key z))
    (get_all_currencies currencies)
  = List.filter
      (fun c => String.eqb (from_key c) (from_key z)
                && negb (String.eqb (cur_tender c) "false"))
      currencies.
Proof.
  rewrite get_all_currencies_stable.
  induction currencies as [|c l IH]; [reflexivity|]. cbn [List.filter].
  destruct (negb (String.eqb (cur_tender c) "false")); cbn [List.filter];
    rewrite IH, ?andb_true_r, ?andb_false_r; reflexivity.
Qed.

(** ** Views, further *)

Lemma is_valid_region_true (region_code : string)
    (country_info : gmap string string) :
  is_valid_region region_code country_info = true ->
  exists name, country_info !! "name" = Some name
               /\ name <> "" /\ name <> "Unknown".
Proof.
  unfold is_valid_region.
  destruct (country_info !! "name") as [name|];
    cbn [default from_option id]; cbv zeta;
    [|intros H; cbn in H; discriminate H].
  destruct (String.eqb_spec name "Unknown"); cbn [orb]; [discriminate|].
  destruct (String.eqb_spec name ""); cbn [orb]; [discriminate|].
  intros _. eauto.
Qed.

Lemma truthy_or_else (v : option string) :
  Py.truthy v = negb (String.eqb (Py.or_else v "") "").
Proof.
  destruct v as [s|]; [|reflexivity]. cbn.
  destruct (String.eqb s "") eqn:E; [reflexivity|]. now rewrite E.
Qed.

Section ViewFacts2.

Variable iso3166_data : gmap string (gmap string string).
Variable iso4217_data : gmap string (gmap string string).
Variable current_date : string.

(** X12. In the historical view every row is Active or Historical; a row
    without end date is Active, and a Historical row has an end date
    before the current date. *)
Theorem historical_row_status (now : nat -> string) (tick : nat)
    (currency_data : list (string * list Currency)) (row : Historical.row) :
  In row (generate_historical_currencies_csv iso3166_data iso4217_data
            current_date now tick currency_data) ->
  (Historical.status row = "Active" \/ Historical.status row = "Historical")
  /\ (Historical.active_until row = "" -> Historical.status row = "Active")
  /\ (Historical.status row = "Historical" ->
      Historical.active_until row <> ""
      /\ String.leb current_date (Historical.active_until row) = false).
Proof.
  intros Hin. apply generate_historical_currencies_csv_In in Hin.
  destruct (historical_rows_In _ _ _ _ _ _ _ Hin)
    as (rc & cs & c & k & _ & _ & _ & ->).
  cbn. split; [apply status_cases|]. unfold status.
  rewrite truthy_or_else, negb_involutive. unfold Py.ge.
  destruct (String.eqb_spec (Py.or_else (cur_to c) "") "") as [E|E];
    cbv iota.
  - split; [reflexivity|discriminate].
  - split; [contradiction|].
    destruct (String.leb current_date (Py.or_else (cur_to c) ""));
      [discriminate|]. intros _. now split.
Qed.

End ViewFacts2.

Lemma historical_row_status_witness :
  (Historical.status Sample.xfo_row = "Active"
   \/ Historical.status Sample.xfo_row = "Historical")
  /\ (Historical.active_until Sample.xfo_row = ""
      -> Historical.status Sample.xfo_row = "Active")
  /\ (Historical.status Sample.xfo_row = "Historical" ->
      Historical.active_until Sample.xfo_row <> ""
      /\ String.leb Sample.today (Historical.active_until Sample.xfo_row)
         = false).
Proof.
  apply (historical_row_status Sample.iso3166_data Sample.iso4217_data
           Sample.today Sample.now 0 Sample.currency_data Sample.xfo_row).
  vm_compute. right. left. reflexivity.
Defined.

Section ViewFacts3.

Variable iso3166_data : gmap string (gmap string string).
Variable iso4217_data : gmap string (gmap string string).
Variable current_date : string.

Lemma current_rows_complete (now : nat -> string) (tick : nat)
    (items : list (string * list Currency)) (region_code : string)
    (currencies : list Currency) (c : Currency) :
  In (region_code, currencies) items ->
  is_valid_region region_code (country_info_of iso3166_data region_code)
  = true ->
  determine_current_currency current_date currencies = Some c ->
  exists k, In (current_row iso3166_data iso4217_data region_code c (now k))
              (current_rows iso3166_data iso4217_data current_date now tick
                 items).
Proof.
  intros Hin Hv Hc. revert tick.
  induction items as [|[rc cs] rest IH]; intros tick; [destruct Hin|].
  cbn [current_rows]. destruct Hin as [E|Hin].
  - injection E as -> ->. rewrite Hv, Hc. cbn [negb].
    exists tick. now left.
  - destruct (negb (is_valid_region rc _)); [now apply IH|].
    destruct (determine_current_currency current_date cs);
      [|now apply IH].
    destruct (IH Hin (S tick)) as [k Hk]. exists k. now right.
Qed.

(** X13. The current view has at most one row for each item of the history,
    in the order of the history. *)
Theorem current_view_follows_history (now : nat -> string) (tick : nat)
    (currency_data : list (string * list Currency)) :
  sublist
    (List.map Current.country_code
       (generate_current_currencies_csv iso3166_data iso4217_data
          current_date now tick currency_data))
    (List.map fst currency_data).
Proof.
  unfold generate_current_currencies_csv. revert tick.
  induction currency_data as [|[rc cs] rest IH]; intros tick;
    cbn [current_rows List.map fst]; [constructor|].
  destruct (negb (is_valid_region rc _)); [apply sublist_cons, IH|].
  destruct (determine_current_currency current_date cs);
    [|apply sublist_cons, IH].
  cbn [List.map]. apply sublist_skip, IH.
Qed.

(** X14. The currency of a row of the current view has a row in the
    historical view, for the same region and with the same names and start
    date, and that row is Active. *)
Theorem current_row_in_historical_view (now : nat -> string)
    (tick tick' : nat) (currency_data : list (string * list Currency))
    (row : Current.row) :
  In row (generate_current_currencies_csv iso3166_data iso4217_data
            current_date now tick currency_data) ->
  exists hrow,
    In hrow (generate_historical_currencies_csv iso3166_data iso4217_data
               current_date now tick' currency_data)
    /\ Historical.status hrow = "Active"
    /\ Historical.country_code hrow = Current.country_code row
    /\ Historical.country_name hrow = Current.country_name row
    /\ Historical.official_country_name hrow
       = Current.official_country_name row
    /\ Historical.iso_alpha3_code hrow = Current.iso_alpha3_code row
    /\ Historical.currency_code hrow = Current.currency_code row
    /\ Historical.currency_name hrow = Current.currency_name row
    /\ Historical.active_from hrow = Current.active_since row.
Proof.
  intros Hin.
  destruct (current_rows_In _ _ _ _ _ _ _ Hin)
    as (rc & cs & c & k & Hi & Hv & Hc & ->).
  apply determine_Some_qualifies in Hc as [Hcin [Ht Hs]].
  assert (Hall : In c (get_all_currencies cs))
    by (apply get_all_currencies_In; now split).
  destruct (historical_rows_complete iso3166_data iso4217_data current_date
              now tick' currency_data rc cs c Hi Hv Hall) as [k' Hk'].
  eexists. split; [apply generate_historical_currencies_csv_In, Hk'|].
  cbn. split; [now apply status_active_iff|]. repeat split.
Qed.

(** X15. No placeholder name reaches a view: in every row of the current and
    of the historical view the country name is a name of the country
    table, not empty and not ["Unknown"], the official name is present,
    and a currency with a code has a name. *)
Theorem rows_are_named (now : nat -> string) (tick : nat)
    (currency_data : list (string * list Currency)) :
  (forall row,
      In row (generate_current_currencies_csv iso3166_data iso4217_data
                current_date now tick currency_data) ->
      (exists name, Current.country_name row = Some name
                    /\ name <> "" /\ name <> "Unknown")
      /\ is_Some (Current.official_country_name row)
      /\ (is_Some (Current.currency_code row) ->
          is_Some (Current.currency_name row)))
  /\ (forall row,
         In row (generate_historical_currencies_csv iso3166_data
                   iso4217_data current_date now tick currency_data) ->
         (exists name, Historical.country_name row = Some name
                       /\ name <> "" /\ name <> "Unknown")
         /\ is_Some (Historical.official_country_name row)
         /\ (is_Some (Historical.currency_code row) ->
             is_Some (Historical.currency_name row))).
Proof.
  assert (Hoff : forall ci name, ci !! "name" = Some name ->
                                 is_Some (official_name_of ci)).
  { intros ci name Hn. unfold official_name_of.
    destruct (ci !! "official_name"); eauto. }
  assert (Hcur : forall c, is_Some (cur_iso4217 c) ->
                           is_Some (currency_name_of iso4217_data c)).
  { intros c Hc. unfold currency_name_of.
    destruct (currency_info_of iso4217_data (cur_iso4217 c) !! "name");
      eauto. }
  split; intros row Hin.
  - destruct (current_rows_In _ _ _ _ _ _ _ Hin)
      as (rc & cs & c & k & _ & Hv & _ & ->).
    apply is_valid_region_true in Hv as (name & Hn & Hne).
    cbn. split; [eauto|]. split; [eapply Hoff, Hn|apply Hcur].
  - apply generate_historical_currencies_csv_In in Hin.
    destruct (historical_rows_In _ _ _ _ _ _ _ Hin)
      as (rc & cs & c & k & _ & Hv & _ & ->).
    apply is_valid_region_true in Hv as (name & Hn & Hne).
    cbn. split; [eauto|]. split; [eapply Hoff, Hn|apply Hcur].
Qed.

(** X16. The rows of the historical view are in non-decreasing order of region
    code, and among the rows of a region with the same status in
    non-decreasing order of the start date column. *)
Theorem historical_view_by_region (now : nat -> string) (tick : nat)
    (currency_data : list (string * list Currency)) :
  StronglySorted
    (fun a b =>
       String.leb (Historical.country_code a) (Historical.country_code b)
       = true
       /\ (Historical.country_code a = Historical.country_code b ->
           Historical.status a = Historical.status b ->
           String.leb (Historical.active_from a) (Historical.active_from b)
           = true))
    (generate_historical_currencies_csv iso3166_data iso4217_data
       current_date now tick currency_data).
Proof.
  eapply (StronglySorted_weaken _ _ (fun _ => True));
    [|apply List.Forall_forall; auto
     |apply generate_historical_currencies_csv_sorted].
  intros a b _ _. unfold Historical.sort_le, Historical.sort_compare.
  unfold String.leb.
  destruct (String.compare (Historical.country_code a) _) eqn:Ec;
    try discriminate.
  - intros H. split; [reflexivity|]. intros _ Hs.
    rewrite Hs, string_compare_refl in H. exact H.
  - intros _. split; [reflexivity|]. intros E. rewrite E in Ec.
    now rewrite string_compare_refl in Ec.
Qed.

(** The JSON loops leave alone the keys that are not in the history. *)
Lemma current_json_untouched (region_code : string)
    (items : list (string * list Currency))
    (data : gmap string CurrentJson.entry) :
  ~ In region_code (List.map fst items) ->
  fold_left (current_json_step iso3166_data iso4217_data current_date)
    items data !! region_code
  = data !! region_code.
Proof.
  revert data. induction items as [|[rc cs] rest IH]; intros data Hnin;
    [reflexivity|].
  cbn [fold_left]. rewrite IH by (intros H; apply Hnin; now right).
  unfold current_json_step.
  destruct (negb (is_valid_region rc _)); [reflexivity|].
  destruct (determine_current_currency current_date cs); [|reflexivity].
  apply lookup_insert_ne. intros ->. apply Hnin. now left.
Qed.

Lemma historical_json_untouched (region_code : string)
    (items : list (string * list Currency))
    (data : gmap string HistoricalJson.entry) :
  ~ In region_code (List.map fst items) ->
  fold_left (historical_json_step iso3166_data iso4217_data current_date)
    items data !! region_code
  = data !! region_code.
Proof.
  revert data. induction items as [|[rc cs] rest IH]; intros data Hnin;
    [reflexivity|].
  cbn [fold_left]. rewrite IH by (intros H; apply Hnin; now right).
  unfold historical_json_step.
  destruct (negb (is_valid_region rc _)); [reflexivity|]. cbv zeta.
  destruct (List.map _ (get_all_currencies cs)); [reflexivity|].
  apply lookup_insert_ne. intros ->. apply Hnin. now left.
Qed.

Lemma current_json_lookup (region_code : string)
    (items : list (string * list Currency))
    (data : gmap string CurrentJson.entry) (e : CurrentJson.entry) :
  fold_left (current_json_step iso3166_data iso4217_data current_date)
    items data !! region_code = Some e ->
  data !! region_code = Some e
  \/ exists currencies c,
       In (region_code, currencies) items
       /\ is_valid_region region_code
            (country_info_of iso3166_data region_code) = true
       /\ determine_current_currency current_date currencies = Some c
       /\ e = current_entry_of_row
                (current_row iso3166_data iso4217_data region_code c "").
Proof.
  revert data.
  induction items as [|[rc cs] rest IH]; intros data; [now left|].
  cbn [fold_left]. intros H. apply IH in H.
  destruct H as [H | (currencies & c & Hin & Hrest)];
    [|right; exists currencies, c; split; [now right|exact Hrest]].
  unfold current_json_step in H.
  destruct (is_valid_region rc _) eqn:Ev; cbn [negb] in H; [|now left].
  destruct (determine_current_currency current_date cs) as [c|] eqn:Ed;
    [|now left].
  destruct (decide (rc = region_code)) as [->|Hne].
  - rewrite lookup_insert_eq in H. injection H as <-.
    right. exists cs, c. split; [now left|]. auto.
  - rewrite lookup_insert_ne in H by exact Hne. now left.
Qed.

Lemma current_json_complete (region_code : string)
    (items : list (string * list Currency))
    (data : gmap string CurrentJson.entry) (currencies : list Currency)
    (c : Currency) :
  List.NoDup (List.map fst items) ->
  In (region_code, currencies) items ->
  is_valid_region region_code (country_info_of iso3166_data region_code)
  = true ->
  determine_current_currency current_date currencies = Some c ->
  fold_left (current_json_step iso3166_data iso4217_data current_date)
    items data !! region_code
  = Some (current_entry_of_row
            (current_row iso3166_data iso4217_data region_code c "")).
Proof.
  intros Hnd Hin Hv Hc. revert data.
  induction items as [|[rc cs] rest IH]; intros data; [destruct Hin|].
  cbn [List.map fst] in Hnd. inversion_clear Hnd as [|? ? Hk Hrest].
  cbn [fold_left]. destruct Hin as [E|Hin].
  - injection E as -> ->. rewrite current_json_untouched by exact Hk.
    unfold current_json_step. rewrite Hv, Hc. cbn [negb].
    apply lookup_insert_eq.
  - now apply IH.
Qed.

Lemma historical_json_complete (region_code : string)
    (items : list (string * list Currency))
    (data : gmap string HistoricalJson.entry) (currencies : list Currency) :
  List.NoDup (List.map fst items) ->
  In (region_code, currencies) items ->
  is_valid_region region_code (country_info_of iso3166_data region_code)
  = true ->
  get_all_currencies currencies <> [] ->
  is_Some
    (fold_left (historical_json_step iso3166_data iso4217_data current_date)
       items data !! region_code).
Proof.
  intros Hnd Hin Hv Hne. revert data.
  induction items as [|[rc cs] rest IH]; intros data; [destruct Hin|].
  cbn [List.map fst] in Hnd. inversion_clear Hnd as [|? ? Hk Hrest].
  cbn [fold_left]. destruct Hin as [E|Hin].
  - injection E as -> ->. rewrite historical_json_untouched by exact Hk.
    unfold historical_json_step. rewrite Hv. cbn [negb]. cbv zeta.
    destruct (get_all_currencies currencies) as [|c l]; [congruence|].
    cbn [List.map]. rewrite lookup_insert_eq. eauto.
  - now apply IH.
Qed.

(** X17. With distinct region codes the two renderings of the current view
    agree: a region has an entry in the JSON view exactly when it has a
    row in the CSV view, and the entry says what the row says. *)
Theorem current_views_agree (now : nat -> string) (tick : nat)
    (currency_data : list (string * list Currency)) (region_code : string)
    (e : CurrentJson.entry) :
  List.NoDup (List.map fst currency_data) ->
  generate_current_currencies_json iso3166_data iso4217_data current_date
    currency_data !! region_code = Some e
  <-> exists row,
        In row (generate_current_currencies_csv iso3166_data iso4217_data
                  current_date now tick currency_data)
        /\ Current.country_code row = region_code
        /\ current_entry_of_row row = e.
Proof.
  intros Hnd. unfold generate_current_currencies_json. split.
  - intros H. apply current_json_lookup in H
      as [H | (cs & c & Hin & Hv & Hc & ->)];
      [now rewrite lookup_empty in H|].
    destruct (current_rows_complete now tick currency_data region_code cs c
                Hin Hv Hc) as [k Hk].
    eexists. split; [exact Hk|]. split; reflexivity.
  - intros (row & Hin & <- & <-).
    destruct (current_rows_In _ _ _ _ _ _ _ Hin)
      as (rc & cs & c & k & Hi & Hv & Hc & ->).
    cbn [Current.country_code current_row].
    now rewrite (current_json_complete rc currency_data ∅ cs c Hnd Hi Hv Hc).
Qed.

Lemma filter_perm {A} (p : A -> bool) (l l' : list A) :
  Permutation l l' -> Permutation (List.filter p l) (List.filter p l').
Proof.
  induction 1 as [|x l l' _ IH|x y l|l l' l'' _ IH1 _ IH2];
    cbn [List.filter].
  - constructor.
  - destruct (p x); [now constructor|exact IH].
  - destruct (p x), (p y); try reflexivity. apply perm_swap.
  - now transitivity (List.filter p l').
Qed.

Lemma region_rows_filter_same (now : nat -> string) (region_code : string)
    (tick : nat) (l : list Currency) :
  List.filter (fun r => String.eqb (Historical.country_code r) region_code)
    (region_rows iso3166_data iso4217_data current_date now region_code
       tick l)
  = region_rows iso3166_data iso4217_data current_date now region_code
      tick l.
Proof.
  apply filter_all. intros row Hin.
  apply region_rows_In in Hin as (c & k & _ & ->). cbn.
  apply String.eqb_refl.
Qed.

Lemma region_rows_filter_other (now : nat -> string) (rc region_code : string)
    (tick : nat) (l : list Currency) :
  rc <> region_code ->
  List.filter (fun r => String.eqb (Historical.country_code r) region_code)
    (region_rows iso3166_data iso4217_data current_date now rc tick l)
  = [].
Proof.
  intros Hne. revert tick. induction l as [|c l IH]; intros tick;
    [reflexivity|].
  cbn [region_rows List.filter historical_row Historical.country_code].
  apply String.eqb_neq in Hne. rewrite Hne. apply IH.
Qed.

Lemma historical_rows_filter_absent (now : nat -> string) (tick : nat)
    (items : list (string * list Currency)) (region_code : string) :
  ~ In region_code (List.map fst items) ->
  List.filter (fun r => String.eqb (Historical.country_code r) region_code)
    (historical_rows iso3166_data iso4217_data current_date now tick items)
  = [].
Proof.
  revert tick. induction items as [|[rc cs] rest IH]; intros tick Hnin;
    [reflexivity|].
  cbn [historical_rows].
  assert (Hrest : ~ In region_code (List.map fst rest))
    by (intros H; apply Hnin; now right).
  destruct (negb (is_valid_region rc _)); [now apply IH|]. cbv zeta.
  rewrite List.filter_app, region_rows_filter_other, IH; auto.
  intros ->. apply Hnin. now left.
Qed.

Lemma historical_rows_filter (now : nat -> string) (tick : nat)
    (items : list (string * list Currency)) (region_code : string)
    (currencies : list Currency) :
  List.NoDup (List.map fst items) ->
  In (region_code, currencies) items ->
  is_valid_region region_code (country_info_of iso3166_data region_code)
  = true ->
  exists tick',
    List.filter (fun r => String.eqb (Historical.country_code r) region_code)
      (historical_rows iso3166_data iso4217_data current_date now tick
         items)
    = region_rows iso3166_data iso4217_data current_date now region_code
        tick' (get_all_currencies currencies).
Proof.
  intros Hnd Hin Hv. revert tick.
  induction items as [|[rc cs] rest IH]; intros tick; [destruct Hin|].
  cbn [List.map fst] in Hnd. inversion_clear Hnd as [|? ? Hk Hrest].
  cbn [historical_rows]. destruct Hin as [E|Hin].
  - injection E as -> ->. rewrite Hv. cbn [negb]. cbv zeta.
    exists tick.
    rewrite List.filter_app, region_rows_filter_same,
      historical_rows_filter_absent by exact Hk.
    apply app_nil_r.
  - assert (Hne : rc <> region_code).
    { intros ->. apply Hk. change region_code with (fst (region_code,
        currencies)). now apply in_map. }
    destruct (negb (is_valid_region rc _)); [now apply IH|]. cbv zeta.
    destruct (IH Hrest Hin (tick + List.length (get_all_currencies cs)))
      as [tick' Ht].
    exists tick'.
    now rewrite List.filter_app, region_rows_filter_other, Ht by exact Hne.
Qed.

Lemma region_rows_items (now : nat -> string) (region_code : string)
    (tick : nat) (l : list Currency) :
  List.map historical_item_of_row
    (region_rows iso3166_data iso4217_data current_date now region_code
       tick l)
  = List.map (historical_item iso4217_data current_date) l.
Proof.
  revert tick. induction l as [|c l IH]; intros tick; [reflexivity|].
  cbn [region_rows List.map]. now rewrite IH.
Qed.

(** X18. With distinct region codes the two renderings of the historical view
    agree: a region has an entry in the JSON view exactly when it has rows
    in the CSV view, and the items of the entry are what these rows say,
    each as many times. *)
Theorem historical_views_agree (now : nat -> string) (tick : nat)
    (currency_data : list (string * list Currency)) (region_code : string) :
  List.NoDup (List.map fst currency_data) ->
  (is_Some
     (generate_historical_currencies_json iso3166_data iso4217_data
        current_date currency_data !! region_code)
   <-> exists row,
         In row (generate_historical_currencies_csv iso3166_data
                   iso4217_data current_date now tick currency_data)
         /\ Historical.country_code row = region_code)
  /\ (forall e,
         generate_historical_currencies_json iso3166_data iso4217_data
           current_date currency_data !! region_code = Some e ->
         Permutation (HistoricalJson.currencies e)
           (List.map historical_item_of_row
              (List.filter
                 (fun r =>
                    String.eqb (Historical.country_code r) region_code)
                 (generate_historical_currencies_csv iso3166_data
                    iso4217_data current_date now tick currency_data)))).
Proof.
  intros Hnd. unfold generate_historical_currencies_json. split; [split|].
  - intros [e He].
    apply historical_json_lookup in He
      as [He | (cs & Hin & Hv & Hne & _)];
      [now rewrite lookup_empty in He|].
    destruct (get_all_currencies cs) as [|c l] eqn:Eall; [congruence|].
    destruct (historical_rows_complete iso3166_data iso4217_data
                current_date now tick currency_data region_code cs c
                Hin Hv) as [k Hk]; [rewrite Eall; now left|].
    eexists. split; [apply generate_historical_currencies_csv_In, Hk|].
    reflexivity.
  - intros (row & Hin & <-).
    apply generate_historical_currencies_csv_In in Hin.
    destruct (historical_rows_In _ _ _ _ _ _ _ Hin)
      as (rc & cs & c & k & Hi & Hv & Hc & ->).
    cbn [Historical.country_code historical_row].
    apply (historical_json_complete rc currency_data ∅ cs Hnd Hi Hv).
    intros E. rewrite E in Hc. destruct Hc.
  - intros e He.
    apply historical_json_lookup in He
      as [He | (cs & Hin & Hv & _ & ->)];
      [now rewrite lookup_empty in He|].
    rewrite generate_historical_currencies_csv_sorted_rows.
    unfold Historical.sort_values.
    rewrite (filter_perm _ _ _ (stable_sort_perm Historical.sort_le _)).
    destruct (historical_rows_filter now tick currency_data region_code cs
                Hnd Hin Hv) as [tick' ->].
    now rewrite region_rows_items.
Qed.

End ViewFacts3.

Lemma current_row_in_historical_view_witness :
  exists hrow,
    In hrow (generate_historical_currencies_csv Sample.iso3166_data
               Sample.iso4217_data Sample.today Sample.now 7
               Sample.currency_data)
    /\ Historical.status hrow = "Active"
    /\ Historical.country_code hrow = Current.country_code SampleViews.us_row
    /\ Historical.country_name hrow = Current.country_name SampleViews.us_row
    /\ Historical.official_country_name hrow
       = Current.official_country_name SampleViews.us_row
    /\ Historical.iso_alpha3_code hrow
       = Current.iso_alpha3_code SampleViews.us_row
    /\ Historical.currency_code hrow
       = Current.currency_code SampleViews.us_row
    /\ Historical.currency_name hrow
       = Current.currency_name SampleViews.us_row
    /\ Historical.active_from hrow = Current.active_since SampleViews.us_row.
Proof.
  apply (current_row_in_historical_view Sample.iso3166_data
           Sample.iso4217_data Sample.today Sample.now 0 7
           Sample.currency_data SampleViews.us_row).
  vm_compute. left. reflexivity.
Defined.

Lemma rows_are_named_witness :
  (exists name, Current.country_name SampleViews.us_row = Some name
                /\ name <> "" /\ name <> "Unknown")
  /\ (exists name, Historical.country_name Sample.xfo_row = Some name
                   /\ name <> "" /\ name <> "Unknown")
  /\ is_Some (Historical.currency_name Sample.xfo_row).
Proof.
  destruct (rows_are_named Sample.iso3166_data Sample.iso4217_data
              Sample.today Sample.now 0 Sample.currency_data) as [Hc Hh].
  assert (H1 : In SampleViews.us_row
                 (generate_current_currencies_csv Sample.iso3166_data
                    Sample.iso4217_data Sample.today Sample.now 0
                    Sample.currency_data))
    by (vm_compute; left; reflexivity).
  assert (H2 : In Sample.xfo_row
                 (generate_historical_currencies_csv Sample.iso3166_data
                    Sample.iso4217_data Sample.today Sample.now 0
                    Sample.currency_data))
    by (vm_compute; right; left; reflexivity).
  destruct (Hc _ H1) as (Hn & _). destruct (Hh _ H2) as (Hn' & _ & Hcur).
  split; [exact Hn|]. split; [exact Hn'|]. apply Hcur. eexists. reflexivity.
Defined.

Lemma sample_currency_data_NoDup :
  List.NoDup (List.map fst Sample.currency_data).
Proof. repeat constructor; simpl; intuition discriminate. Qed.

Lemma current_views_agree_witness :
  generate_current_currencies_json Sample.iso3166_data Sample.iso4217_data
    Sample.today Sample.currency_data !! "US" = Some SampleViews.us_entry
  <-> exists row,
        In row (generate_current_currencies_csv Sample.iso3166_data
                  Sample.iso4217_data Sample.today Sample.now 0
                  Sample.currency_data)
        /\ Current.country_code row = "US"
        /\ current_entry_of_row row = SampleViews.us_entry.
Proof.
  apply (current_views_agree Sample.iso3166_data Sample.iso4217_data
           Sample.today Sample.now 0 Sample.currency_data "US"
           SampleViews.us_entry).
  repeat constructor; simpl; intuition discriminate.
Defined.

Lemma historical_views_agree_witness :
  (is_Some
     (generate_historical_currencies_json Sample.iso3166_data
        Sample.iso4217_data Sample.today Sample.currency_data !! "FR")
   <-> exists row,
         In row (generate_historical_currencies_csv Sample.iso3166_data
                   Sample.iso4217_data Sample.today Sample.now 0
                   Sample.currency_data)
         /\ Historical.country_code row = "FR")
  /\ (forall e,
         generate_historical_currencies_json Sample.iso3166_data
           Sample.iso4217_data Sample.today Sample.currency_data !! "FR"
         = Some e ->
         Permutation (HistoricalJson.currencies e)
           (List.map historical_item_of_row
              (List.filter
                 (fun r => String.eqb (Historical.country_code r) "FR")
                 (generate_historical_currencies_csv Sample.iso3166_data
                    Sample.iso4217_data Sample.today Sample.now 0
                    Sample.currency_data)))).
Proof.
  apply (historical_views_agree Sample.iso3166_data Sample.iso4217_data
           Sample.today Sample.now 0 Sample.currency_data "FR").
  repeat constructor; simpl; intuition discriminate.
Defined.

(** ** Parser and views *)

(** X19. From a parsed document the current view has one row at most for a
    region code, and no row with an empty code. *)
Theorem parsed_current_view_regions (root : Element)
    (currency_data : list (string * list Currency))
    (iso3166_data iso4217_data : gmap string (gmap string string))
    (current_date : string) (now : nat -> string) (tick : nat) :
  parse_currency_tree root = Return currency_data ->
  List.NoDup
    (List.map Current.country_code
       (generate_current_currencies_csv iso3166_data iso4217_data
          current_date now tick currency_data))
  /\ List.Forall (fun code => code <> "")
       (List.map Current.country_code
          (generate_current_currencies_csv iso3166_data iso4217_data
             current_date now tick currency_data)).
Proof.
  unfold parse_currency_tree.
  destruct (find_descendant "currencyData" root) as [e|]; [|discriminate].
  intros [= <-].
  destruct (parse_regions_keys (findall_descendants "region" e) []
              (List.NoDup_nil _) (List.Forall_nil _)) as [Hnd Hne].
  split.
  - apply NoDup_ListNoDup. apply NoDup_ListNoDup in Hnd.
    eapply sublist_NoDup; [exact Hnd|].
    apply current_view_follows_history.
  - rewrite List.Forall_forall in *. intros code Hin.
    apply in_map_iff in Hin as (row & <- & Hrow).
    destruct (current_rows_In _ _ _ _ _ _ _ Hrow)
      as (rc & cs & c & k & Hi & _ & _ & ->).
    cbn. apply Hne. change rc with (fst (rc, cs)). now apply in_map.
Qed.

Lemma parsed_current_view_regions_witness :
  List.NoDup
    (List.map Current.country_code
       (generate_current_currencies_csv Sample.iso3166_data
          Sample.iso4217_data Sample.today Sample.now 0 sample_parsed))
  /\ List.Forall (fun code => code <> "")
       (List.map Current.country_code
          (generate_current_currencies_csv Sample.iso3166_data
             Sample.iso4217_data Sample.today Sample.now 0 sample_parsed)).
Proof.
  apply (parsed_current_view_regions sample_document). reflexivity.
Defined.

(** ** A run without country table *)

Lemma empty_table_invalid (region_code : string) :
  is_valid_region region_code (country_info_of ∅ region_code) = false.
Proof. apply is_valid_region_false. left. apply lookup_empty. Qed.

(** X20. When loading the country table fails, the four views come out empty
    whatever the history holds: every region is filtered out. *)
Theorem failed_country_load_empties_views
    (countries_db : iterator (gmap string string))
    (iso4217_data : gmap string (gmap string string))
    (current_date : string) (now : nat -> string) (tick : nat)
    (currency_data : list (string * list Currency)) :
  load_failure ["alpha_2"; "alpha_3"; "name"] countries_db ->
  exists iso3166_data,
    fetch_iso3166_data countries_db = Return iso3166_data
    /\ generate_current_currencies_csv iso3166_data iso4217_data
         current_date now tick currency_data = []
    /\ generate_historical_currencies_csv iso3166_data iso4217_data
         current_date now tick currency_data = []
    /\ generate_current_currencies_json iso3166_data iso4217_data
         current_date currency_data = ∅
    /\ generate_historical_currencies_json iso3166_data iso4217_data
         current_date currency_data = ∅.
Proof.
  intros Hf. destruct (iso3166_loop_failure _ ∅ Hf) as [name E].
  exists ∅. unfold fetch_iso3166_data. rewrite E.
  split; [reflexivity|].
  assert (Hcur : forall t items,
             current_rows ∅ iso4217_data current_date now t items = []).
  { intros t items. revert t.
    induction items as [|[rc cs] rest IH]; intros t; [reflexivity|].
    cbn [current_rows]. rewrite empty_table_invalid. apply IH. }
  assert (Hhist : forall t items,
             historical_rows ∅ iso4217_data current_date now t items = []).
  { intros t items. revert t.
    induction items as [|[rc cs] rest IH]; intros t; [reflexivity|].
    cbn [historical_rows]. rewrite empty_table_invalid. apply IH. }
  assert (Hcj : forall items (data : gmap string CurrentJson.entry),
             fold_left (current_json_step ∅ iso4217_data current_date)
               items data = data).
  { induction items as [|[rc cs] rest IH]; intros data; [reflexivity|].
    cbn [fold_left]. rewrite IH. unfold current_json_step.
    now rewrite empty_table_invalid. }
  assert (Hhj : forall items (data : gmap string HistoricalJson.entry),
             fold_left (historical_json_step ∅ iso4217_data current_date)
               items data = data).
  { induction items as [|[rc cs] rest IH]; intros data; [reflexivity|].
    cbn [fold_left]. rewrite IH. unfold historical_json_step.
    now rewrite empty_table_invalid. }
  split; [apply Hcur|].
  split; [unfold generate_historical_currencies_csv; now rewrite Hhist|].
  split; [apply Hcj|apply Hhj].
Qed.

Lemma failed_country_load_empties_views_witness :
  exists iso3166_data,
    fetch_iso3166_data broken_countries = Return iso3166_data
    /\ generate_current_currencies_csv iso3166_data Sample.iso4217_data
         Sample.today Sample.now 0 Sample.currency_data = []
    /\ generate_historical_currencies_csv iso3166_data Sample.iso4217_data
         Sample.today Sample.now 0 Sample.currency_data = []
    /\ generate_current_currencies_json iso3166_data Sample.iso4217_data
         Sample.today Sample.currency_data = ∅
    /\ generate_historical_currencies_json iso3166_data Sample.iso4217_data
         Sample.today Sample.currency_data = ∅.
Proof.
  apply (failed_country_load_empties_views broken_countries).
  apply fails_later. apply (malformed _ _ _ "alpha_3").
  - simpl. auto.
  - vm_compute. reflexivity.
Defined.
